(** * messagely: users, login routes and message routes

    A shallow embedding of [models/user.js], [routes/auth.js] and
    [routes/messages.js].  Asynchronous functions become state-passing
    computations over the relational store; a rejected promise is a thrown
    exception. *)

From Stdlib Require Import ZArith Lia.
From stdpp Require Import base option list strings gmap.

Local Open Scope Z_scope.

(** ** JavaScript values that reach the code *)

(** A request field or argument that is either a string or [undefined]. *)
Abbreviation jsstring := (option string).

(** [!v] on such a value: [undefined] and the empty string are falsy. *)
Definition falsy (v : jsstring) : bool :=
  match v with
  | None => true
  | Some s => bool_decide (s = "")
  end.

(** The string held by a value already known to be truthy. *)
Definition str (v : jsstring) : string := default "" v.

(** A value of a verified token's claim: the routes sign [req.body.username]
    after a truthiness check only, so besides a string it can be an array (of
    strings, nulls and arrays).  Numbers, booleans and plain objects are left
    out. *)
Local Unset Elimination Schemes.
Inductive jsval :=
| JStr (s : string)
| JArr (items : list (option jsval)).
Local Set Elimination Schemes.

(** ToPrimitive: a string is itself; an array is its [toString()], the
    elements joined by commas, a null element giving the empty string. *)
Fixpoint to_primitive (v : jsval) : string :=
  match v with
  | JStr s => s
  | JArr items =>
      String.concat ","
        (List.map (λ x, match x with
                        | None => ""
                        | Some e => to_primitive e
                        end) items)
  end.

(** [a == b] where [b] is a string or a null column: an array [a] is compared
    through ToPrimitive, and neither a string nor an array equals null. *)
Definition loose_eq (a : jsval) (b : jsstring) : bool :=
  match b with
  | Some s => bool_decide (to_primitive a = s)
  | None => false
  end.

(** [!xs] for an array: every object, the empty array included, is truthy. *)
Definition array_falsy {A : Type} (xs : list A) : bool := false.

(** ** Exceptions *)

Inductive exn :=
| ExpressError (message : string) (status : Z)
| PgError (code : string)
| TypeError (message : string).

(** [e.code]: only errors of the database driver carry one. *)
Definition exn_code (e : exn) : jsstring :=
  match e with
  | PgError c => Some c
  | _ => None
  end.

Global Instance exn_eq_dec : EqDecision exn.
Proof. solve_decision. Defined.

Inductive completion (A : Type) :=
| Return (a : A)
| Throw (e : exn).
Arguments Return {A} a.
Arguments Throw {A} e.

(** ** The relational store *)

Inductive sqlval :=
| SqlNull
| SqlText (s : string)
| SqlInt (n : Z)
| SqlTime (t : Z).

Global Instance sqlval_eq_dec : EqDecision sqlval.
Proof. solve_decision. Defined.

(** A row object of a query result: column names with their values, in the
    order of the select list. *)
Abbreviation row := (list (string * sqlval)).

Definition columns (r : row) : list string := r.*1.

(** [r.c] *)
Definition field (c : string) (r : row) : option sqlval :=
  snd <$> List.find (λ p, bool_decide (p.1 = c)) r.

Definition text_of (v : option sqlval) : string :=
  match v with
  | Some (SqlText s) => s
  | _ => ""
  end.

Record UserRow := {
  u_username : string;
  u_password : string;
  u_first_name : string;
  u_last_name : string;
  u_phone : string;
  u_join_at : Z;
  u_last_login_at : Z
}.

Record MsgRow := {
  m_id : Z;
  m_from_username : string;
  m_to_username : jsstring;
  m_body : jsstring;
  m_sent_at : Z;
  m_read_at : option Z
}.

(** [users] is keyed by the unique [username]; [messages] is kept in insertion
    order; [clock] is the instant the store reports for [now()] and
    [current_timestamp] (how it moves from one query to the next is left to
    the environment and not modelled); [fault] is the error code with which
    the store rejects every query while it is failing (connection lost,
    shutdown). *)
Record DB := {
  users : gmap string UserRow;
  messages : list MsgRow;
  next_id : Z;
  clock : Z;
  fault : option string
}.

Definition with_users (us : gmap string UserRow) (db : DB) : DB :=
  {| users := us; messages := messages db; next_id := next_id db;
     clock := clock db; fault := fault db |}.

Definition with_messages (ms : list MsgRow) (n : Z) (db : DB) : DB :=
  {| users := users db; messages := ms; next_id := n;
     clock := clock db; fault := fault db |}.

(** ** Asynchronous computations over the store *)

Definition M (A : Type) : Type := DB → completion A * DB.

Definition ret {A} (a : A) : M A := λ db, (Return a, db).

Definition throw {A} (e : exn) : M A := λ db, (Throw e, db).

Definition bind {A B} (c : M A) (k : A → M B) : M B :=
  λ db, match c db with
        | (Return a, db') => k a db'
        | (Throw e, db') => (Throw e, db')
        end.

(** [try { c } catch (e) { h e }] *)
Definition try_catch {A} (c : M A) (h : exn → M A) : M A :=
  λ db, match c db with
        | (Return a, db') => (Return a, db')
        | (Throw e, db') => h e db'
        end.

(** A call whose promise is not awaited: its effect on the store happens,
    its outcome is dropped.  The time that passes before the store serves it
    is not modelled: it runs at the instant [clock] of the store it is given. *)
Definition detach {A} (c : M A) : M unit :=
  λ db, (Return tt, (c db).2).

Global Instance M_ret : MRet M := @ret.
Global Instance M_bind : MBind M := λ A B k c, bind c k.

(** [db.query]: a query is rejected with the fault's code while the store is
    failing, and runs otherwise. *)
Definition query {A} (run : DB → completion A * DB) : M A :=
  λ db, match fault db with
        | Some code => (Throw (PgError code), db)
        | None => run db
        end.

(** *** Query parameters *)

Definition dquote : Ascii.ascii := Ascii.ascii_of_nat 34.
Definition backslash : Ascii.ascii := Ascii.ascii_of_nat 92.

(** Backslashes and double quotes of an array element, escaped. *)
Fixpoint escape (s : string) : string :=
  match s with
  | EmptyString => EmptyString
  | String c r =>
      if bool_decide (c = backslash) || bool_decide (c = dquote)
      then String backslash (String c (escape r))
      else String c (escape r)
  end.

(** An element of an array parameter: a string in double quotes, a nested
    array in braces, a null as NULL. *)
Fixpoint arrayElement (v : jsval) : string :=
  match v with
  | JStr s => String dquote (escape s) +:+ String dquote EmptyString
  | JArr items =>
      "{" +:+ String.concat ","
        (List.map (λ x, match x with
                        | None => "NULL"
                        | Some e => arrayElement e
                        end) items) +:+ "}"
  end.

(** The text the driver sends for a parameter: a string as it is, an array
    as an array literal. *)
Definition prepareValue (v : jsval) : string :=
  match v with
  | JStr s => s
  | JArr _ => arrayElement v
  end.

(** *** The [users] table *)

Definition user_column (c : string) (u : UserRow) : sqlval :=
  if bool_decide (c = "username") then SqlText (u_username u)
  else if bool_decide (c = "password") then SqlText (u_password u)
  else if bool_decide (c = "first_name") then SqlText (u_first_name u)
  else if bool_decide (c = "last_name") then SqlText (u_last_name u)
  else if bool_decide (c = "phone") then SqlText (u_phone u)
  else if bool_decide (c = "join_at") then SqlTime (u_join_at u)
  else if bool_decide (c = "last_login_at") then SqlTime (u_last_login_at u)
  else SqlNull.

(** The select (or returning) list applied to a stored user. *)
Definition project (cols : list string) (u : UserRow) : row :=
  (λ c, (c, user_column c u)) <$> cols.

(** [INSERT INTO users (...) VALUES ($1, $2, $3, $4, $5, now(),
    current_timestamp) RETURNING cols]: a second row for a username violates
    the unique key, error code 23505. *)
Definition insert_user (cols : list string)
    (username password first_name last_name phone : string) : M (list row) :=
  query (λ db,
    match users db !! username with
    | Some _ => (Throw (PgError "23505"), db)
    | None =>
        let u := {| u_username := username; u_password := password;
                    u_first_name := first_name; u_last_name := last_name;
                    u_phone := phone; u_join_at := clock db;
                    u_last_login_at := clock db |} in
        (Return [project cols u], with_users (<[username := u]> (users db)) db)
    end).

(** [SELECT cols FROM users WHERE username = $1] *)
Definition select_user (cols : list string) (username : jsstring) : M (list row) :=
  query (λ db,
    (Return (option_list (project cols <$> (username ≫= (users db !!.)))), db)).

(** [SELECT cols FROM users] *)
Definition select_users (cols : list string) : M (list row) :=
  query (λ db, (Return (project cols <$> (map_to_list (users db)).*2), db)).

Definition stamp_login (t : Z) (u : UserRow) : UserRow :=
  {| u_username := u_username u; u_password := u_password u;
     u_first_name := u_first_name u; u_last_name := u_last_name u;
     u_phone := u_phone u; u_join_at := u_join_at u; u_last_login_at := t |}.

(** [UPDATE users SET last_login_at = current_timestamp WHERE username = $1] *)
Definition update_last_login (username : jsstring) : M (list row) :=
  query (λ db,
    (Return [],
     match username with
     | Some name => with_users (alter (stamp_login (clock db)) name (users db)) db
     | None => db
     end)).

(** *** The [messages] table joined with [users] *)

(** A row of [messages AS m LEFT JOIN users AS u ON key = u.username] with the
    select list [m.id, m.to_username, m.body, m.sent_at, m.read_at,
    u.username, u.first_name, u.last_name, u.phone]: the [u] columns are null
    when no user matches. *)
Record JoinRow := {
  r_id : Z;
  r_to_username : jsstring;
  r_body : jsstring;
  r_sent_at : Z;
  r_read_at : option Z;
  r_username : jsstring;
  r_first_name : jsstring;
  r_last_name : jsstring;
  r_phone : jsstring
}.

Definition left_join (us : gmap string UserRow) (key : jsstring) (m : MsgRow) : JoinRow :=
  let u := key ≫= (us !!.) in
  {| r_id := m_id m; r_to_username := m_to_username m; r_body := m_body m;
     r_sent_at := m_sent_at m; r_read_at := m_read_at m;
     r_username := u_username <$> u; r_first_name := u_first_name <$> u;
     r_last_name := u_last_name <$> u; r_phone := u_phone <$> u |}.

(** [... ON m.to_username = u.username WHERE m.from_username = $1] *)
Definition select_messages_from (username : string) : M (list JoinRow) :=
  query (λ db,
    (Return ((λ m, left_join (users db) (m_to_username m) m) <$>
             filter (λ m, m_from_username m = username) (messages db)), db)).

(** [... ON m.from_username = u.username WHERE m.to_username = $1] *)
Definition select_messages_to (username : string) : M (list JoinRow) :=
  query (λ db,
    (Return ((λ m, left_join (users db) (Some (m_from_username m)) m) <$>
             filter (λ m, m_to_username m = Some username) (messages db)), db)).

(** ** Libraries and configuration *)

(** [bcrypt.hash], [bcrypt.compare], [jwt.sign] and the two constants of
    [config.js]. *)
Class Externals := {
  bcrypt_hash : string → Z → string;
  bcrypt_compare : string → string → bool;
  jwt_sign : jsstring → string → string;
  BCRYPT_WORK_FACTOR : Z;
  SECRET_KEY : string
}.

(** ** models/user.js *)

Record RegisterArgs := {
  username : string;
  password : string;
  first_name : string;
  last_name : string;
  phone : string
}.

(** [{username, first_name, last_name, phone}] embedded in a message. *)
Record UserSummary := {
  s_username : jsstring;
  s_first_name : jsstring;
  s_last_name : jsstring;
  s_phone : jsstring
}.

(** An element of [messagesFrom]'s and [messagesTo]'s result; [o_user] is the
    [to_user], respectively the [from_user]. *)
Record UserMessage := {
  o_id : Z;
  o_user : UserSummary;
  o_body : jsstring;
  o_sent_at : Z;
  o_read_at : option Z
}.

Module User.
Section User.
Context `{Externals}.

(** "register new user -- returns {username, password, first_name,
    last_name, phone}".  [None] is [undefined], the value of a call that ends
    without [return]. *)
Definition register (a : RegisterArgs) : M (option row) :=
  try_catch
    (let hashedPass := bcrypt_hash (password a) BCRYPT_WORK_FACTOR in
     results ← insert_user ["username"; "password"; "first_name"; "last_name"; "phone"]
                 (username a) hashedPass (first_name a) (last_name a) (phone a);
     let user := head results in
     mret user)
    (λ e,
       if bool_decide (exn_code e = Some "23505")
       then throw (ExpressError "Username taken. Please pick another" 400)
       else mret None).

(** "Authenticate: is this username/password valid? Returns boolean." *)
Definition authenticate (username password : jsstring) : M bool :=
  if falsy username || falsy password
  then throw (ExpressError "Username and password required" 400)
  else
    results ← select_user ["username"; "password"] username;
    let user := head results in
    match user with
    | Some user =>
        if bcrypt_compare (str password) (text_of (field "password" user))
        then
          let token := jwt_sign username SECRET_KEY in
          mret true
        else mret false
    | None => mret false
    end.

(** "Update last_login_at for user" *)
Definition updateLoginTimestamp (username : jsstring) : M unit :=
  _ ← update_last_login username;
  mret tt.

(** "All: basic info on all users: [{username, first_name, last_name,
    phone}, ...]" *)
Definition all : M (list row) :=
  results ← select_users ["username"; "first_name"; "last_name"; "phone"];
  let users := results in
  mret users.

(** "Get: get user by username", returning username, first_name,
    last_name, phone, join_at, last_login_at. *)
Definition get (username : jsstring) : M row :=
  results ← select_user
    ["username"; "first_name"; "last_name"; "phone"; "join_at"; "last_login_at"]
    username;
  let user := head results in
  match user with
  | None => throw (ExpressError "user not found" 404)
  | Some user => mret user
  end.

(** "Return messages from this user", each with its [to_user]. *)
Definition messagesFrom (username : string) : M (list UserMessage) :=
  results ← select_messages_from username;
  let messages :=
    (λ r, {| o_id := r_id r;
             o_user := {| s_username := r_to_username r;
                          s_first_name := r_first_name r;
                          s_last_name := r_last_name r;
                          s_phone := r_phone r |};
             o_body := r_body r;
             o_sent_at := r_sent_at r;
             o_read_at := r_read_at r |}) <$> results in
  if array_falsy messages
  then throw (ExpressError "messages not found" 404)
  else mret messages.

(** "Return messages to this user", each with its [from_user]. *)
Definition messagesTo (username : string) : M (list UserMessage) :=
  results ← select_messages_to username;
  let messages :=
    (λ r, {| o_id := r_id r;
             o_user := {| s_username := r_username r;
                          s_first_name := r_first_name r;
                          s_last_name := r_last_name r;
                          s_phone := r_phone r |};
             o_body := r_body r;
             o_sent_at := r_sent_at r;
             o_read_at := r_read_at r |}) <$> results in
  if array_falsy messages
  then throw (ExpressError "messages not found" 404)
  else mret messages.
End User.
End User.

(** ** models/message.js *)

Record CreateArgs := {
  from_username : jsval;
  to_username : jsstring;
  body : jsstring
}.

Record CreatedMessage := {
  c_id : Z;
  c_from_username : string;
  c_to_username : jsstring;
  c_body : jsstring;
  c_sent_at : Z
}.

Record MessageDetail := {
  d_id : Z;
  d_from_user : UserSummary;
  d_to_user : UserSummary;
  d_body : jsstring;
  d_sent_at : Z;
  d_read_at : option Z
}.

Record ReadReceipt := {
  rr_id : Z;
  rr_read_at : option Z
}.

Definition summary (us : gmap string UserRow) (name : jsstring) : UserSummary :=
  let u := name ≫= (us !!.) in
  {| s_username := name; s_first_name := u_first_name <$> u;
     s_last_name := u_last_name <$> u; s_phone := u_phone <$> u |}.

Definition detail (us : gmap string UserRow) (m : MsgRow) : MessageDetail :=
  {| d_id := m_id m;
     d_from_user := summary us (Some (m_from_username m));
     d_to_user := summary us (m_to_username m);
     d_body := m_body m; d_sent_at := m_sent_at m; d_read_at := m_read_at m |}.

Definition mark (t : Z) (id : Z) (m : MsgRow) : MsgRow :=
  if bool_decide (m_id m = id)
  then {| m_id := m_id m; m_from_username := m_from_username m;
          m_to_username := m_to_username m; m_body := m_body m;
          m_sent_at := m_sent_at m; m_read_at := Some t |}
  else m.

Module Message.

(** Modelled from the spec: [models/message.js] is not among the sources.
    [create] persists a new message with [sentAt] set to the creation
    instant and [readAt] null, under a fresh storage-assigned [id], and
    validates neither username. *)
Definition create (a : CreateArgs) : M CreatedMessage :=
  query (λ db,
    let m := {| m_id := next_id db;
                m_from_username := prepareValue (from_username a);
                m_to_username := to_username a; m_body := body a;
                m_sent_at := clock db; m_read_at := None |} in
    (Return {| c_id := m_id m; c_from_username := m_from_username m;
               c_to_username := m_to_username m; c_body := m_body m;
               c_sent_at := m_sent_at m |},
     with_messages (messages db ++ [m]) (next_id db + 1) db)).

(** Modelled from the spec: [models/message.js] is not among the sources.
    [get] returns the message with embedded from/to user summaries, joined
    at read time, and fails with [NotFound] (404) if no message has the
    [id]. *)
Definition get (id : Z) : M MessageDetail :=
  results ← query (λ db,
    (Return (detail (users db) <$> filter (λ m, m_id m = id) (messages db)), db));
  match head results with
  | None => throw (ExpressError "message not found" 404)
  | Some m => mret m
  end.

(** Modelled from the spec: [models/message.js] is not among the sources.
    [markRead] sets [readAt] to the current instant, also when it was
    already set, and returns [{id, readAt}]. *)
Definition markRead (id : Z) : M ReadReceipt :=
  results ← query (λ db,
    let ms := mark (clock db) id <$> messages db in
    (Return ((λ m, {| rr_id := m_id m; rr_read_at := m_read_at m |}) <$>
             filter (λ m, m_id m = id) ms),
     with_messages ms (next_id db) db));
  match head results with
  | None => throw (ExpressError "message not found" 404)
  | Some r => mret r
  end.

End Message.

(** ** The transport boundary *)

(** The claims of a verified token, as the routes find them in [req.user]. *)
Record TokenPayload := { p_username : jsval }.

(** [req.user] is [undefined] when the request carried no token that
    verified. *)
Record Request := {
  params_id : Z;
  req_body : gmap string string;
  req_user : option TokenPayload
}.

(** What a handler does with a request: answer with [res.json], hand an error
    to [next], or return without doing either. *)
Inductive reply (A : Type) :=
| Json (a : A)
| Next (e : exn)
| Pending.
Arguments Json {A} a.
Arguments Next {A} e.
Arguments Pending {A}.

Definition handler (A : Type) : Type := DB → reply A * DB.

(** [try { c } catch (e) { return next(e); }] *)
Definition try_next {A} (c : M (reply A)) : handler A :=
  λ db, match c db with
        | (Return r, db') => (r, db')
        | (Throw e, db') => (Next e, db')
        end.

(** [req.user.username] *)
Definition user_username (req : Request) : M jsval :=
  match req_user req with
  | Some p => mret (p_username p)
  | None => throw (TypeError "Cannot read properties of undefined (reading 'username')")
  end.

(** Modelled from the spec: [middleware/auth.js] is not among the sources.
    A protected endpoint requires a token that verified; its absence yields
    401 before the handler runs. *)
Definition ensureLoggedIn {A} (h : Request → handler A) (req : Request) : handler A :=
  match req_user req with
  | Some _ => h req
  | None => λ db, (Next (ExpressError "Unauthorized" 401), db)
  end.

(** ** routes/auth.js *)

Module AuthRoutes.
Section AuthRoutes.
Context `{Externals}.

(** [POST /login]; a response object is its keys with their values. *)
Definition login (req : Request) : handler (list (string * string)) :=
  try_next
    (let username := req_body req !! "username" in
     let password := req_body req !! "password" in
     if falsy username || falsy password
     then throw (ExpressError "Username and password required" 400)
     else
       user ← User.authenticate username password;
       if (user : bool)
       then
         let token := jwt_sign username SECRET_KEY in
         _ ← detach (User.updateLoginTimestamp username);
         mret (Json [("message", "Logged in!"); ("token", token)])
       else throw (ExpressError "Invalid username/password" 400)).

(** [POST /register] *)
Definition register (req : Request) : handler (list (string * string)) :=
  try_next
    (let username := req_body req !! "username" in
     let password := req_body req !! "password" in
     let first_name := req_body req !! "first_name" in
     let last_name := req_body req !! "last_name" in
     let phone := req_body req !! "phone" in
     if falsy username || falsy password || falsy first_name
        || falsy last_name || falsy phone
     then throw (ExpressError "please input all required information" 400)
     else
       user ← User.register
                 {| username := str username;
                    password := str password;
                    first_name := str first_name;
                    last_name := str last_name;
                    phone := str phone |};
       match user with
       | Some _ =>
           let token := jwt_sign username SECRET_KEY in
           _ ← detach (User.updateLoginTimestamp username);
           mret (Json [("message", "registered!"); ("token", token)])
       | None => mret Pending
       end).
End AuthRoutes.
End AuthRoutes.

(** ** routes/messages.js *)

Module MessageRoutes.

(** [GET /:id] *)
Definition get_id (req : Request) : handler MessageDetail :=
  try_next
    (let id := params_id req in
     message ← Message.get id;
     caller ← user_username req;
     if loose_eq caller (s_username (d_from_user message))
        || loose_eq caller (s_username (d_to_user message))
     then mret (Json message)
     else throw (ExpressError "Not Authorized" 401)).

(** [POST /] *)
Definition post : Request → handler CreatedMessage :=
  ensureLoggedIn (λ req,
    try_next
      (caller ← user_username req;
       message ← Message.create
                    {| from_username := caller;
                       to_username := req_body req !! "to_username";
                       body := req_body req !! "body" |};
       mret (Json message))).

(** [POST /:id/read] *)
Definition post_id_read (req : Request) : handler ReadReceipt :=
  try_next
    (let id := params_id req in
     message ← Message.get id;
     caller ← user_username req;
     if loose_eq caller (s_username (d_to_user message))
     then
       results ← Message.markRead id;
       mret (Json results)
     else throw (ExpressError "Not Authorized" 401)).

End MessageRoutes.

(** ** Vocabulary of the statements *)

(** "Empty or absent", for an argument of [authenticate]. *)
Definition empty_or_absent (v : jsstring) : Prop := v = None ∨ v = Some "".

(** The store rejecting every query with [code]. *)
Definition failing (code : string) (db : DB) : DB :=
  {| users := users db; messages := messages db; next_id := next_id db;
     clock := clock db; fault := Some code |}.

(** Message ids are assigned by the store: no two messages share one, and
    the next one is above all of them. *)
Definition ids_fresh (db : DB) : Prop :=
  NoDup (m_id <$> messages db) ∧ Forall (λ m, m_id m < next_id db) (messages db).

(** Every stored user sits under its own username. *)
Definition users_keyed (db : DB) : Prop :=
  ∀ name u, users db !! name = Some u → u_username u = name.

(** The columns [get] selects, and the columns [all] selects. *)
Definition get_columns : list string :=
  ["username"; "first_name"; "last_name"; "phone"; "join_at"; "last_login_at"].

Definition all_columns : list string :=
  ["username"; "first_name"; "last_name"; "phone"].

(** The body of a registration request for [a]. *)
Definition form (a : RegisterArgs) : gmap string string :=
  {[ "username" := username a; "password" := password a;
     "first_name" := first_name a; "last_name" := last_name a;
     "phone" := phone a ]}.

(** The body of a login request. *)
Definition credentials (name pw : string) : gmap string string :=
  {[ "username" := name; "password" := pw ]}.

(** A request of the caller [C], whose token verified. *)
Definition as_user (C : string) (id : Z) (b : gmap string string) : Request :=
  {| params_id := id; req_body := b;
     req_user := Some {| p_username := JStr C |} |}.

(** A request whose verified token carries the username [v]. *)
Definition as_caller (v : jsval) (id : Z) (b : gmap string string) : Request :=
  {| params_id := id; req_body := b; req_user := Some {| p_username := v |} |}.

(** A request without a token that verifies. *)
Definition anonymous (id : Z) (b : gmap string string) : Request :=
  {| params_id := id; req_body := b; req_user := None |}.


(** ** A run: alice and bob register, alice writes to bob *)

(** A concrete instance of the libraries, for evaluating the code. *)
Definition toy : Externals := {|
  bcrypt_hash := λ p _, "$2b$" +:+ p;
  bcrypt_compare := λ p h, bool_decide (h = "$2b$" +:+ p);
  jwt_sign := λ u k, "jwt:" +:+ str u +:+ ":" +:+ k;
  BCRYPT_WORK_FACTOR := 12;
  SECRET_KEY := "secret"
|}.

Definition db0 : DB :=
  {| users := ∅; messages := []; next_id := 1; clock := 1000; fault := None |}.

Definition alice : RegisterArgs :=
  {| username := "alice"; password := "pw1"; first_name := "Alice";
     last_name := "A"; phone := "555" |}.

Definition bob : RegisterArgs :=
  {| username := "bob"; password := "pw2"; first_name := "Bob";
     last_name := "B"; phone := "556" |}.

Definition alice_row : UserRow :=
  {| u_username := "alice"; u_password := "$2b$pw1"; u_first_name := "Alice";
     u_last_name := "A"; u_phone := "555"; u_join_at := 1000;
     u_last_login_at := 1000 |}.

Definition bob_row : UserRow :=
  {| u_username := "bob"; u_password := "$2b$pw2"; u_first_name := "Bob";
     u_last_name := "B"; u_phone := "556"; u_join_at := 1000;
     u_last_login_at := 1000 |}.

Definition hi_bob : gmap string string :=
  {[ "to_username" := "bob"; "body" := "hi" ]}.

Definition alice_form : gmap string string :=
  {[ "username" := "alice"; "password" := "pw1"; "first_name" := "Alice";
     "last_name" := "A"; "phone" := "555" ]}.

Definition db1 : DB := (@User.register toy alice db0).2.

Definition db2 : DB := (@User.register toy bob db1).2.

Definition db3 : DB := (MessageRoutes.post (as_user "alice" 0 hi_bob) db2).2.

Definition m1 : MsgRow :=
  {| m_id := 1; m_from_username := "alice"; m_to_username := Some "bob";
     m_body := Some "hi"; m_sent_at := 1000; m_read_at := None |}.

(** * Properties *)

(** ** The store *)

Lemma query_up {A} (run : DB → completion A * DB) (db : DB) :
  fault db = None → query run db = run db.
Proof. intros Hf. unfold query. by rewrite Hf. Qed.

Lemma query_down {A} (run : DB → completion A * DB) (db : DB) (code : string) :
  fault db = Some code → query run db = (Throw (PgError code), db).
Proof. intros Hf. unfold query. by rewrite Hf. Qed.

Lemma bind_eq {A B} (c : M A) (k : A → M B) (db : DB) :
  (c ≫= k) db = match c db with
                | (Return a, db') => k a db'
                | (Throw e, db') => (Throw e, db')
                end.
Proof. reflexivity. Qed.

Lemma mret_eq {A} (a : A) (db : DB) : (mret a : M A) db = (Return a, db).
Proof. reflexivity. Qed.

(** Closes the propositional side goals left once the code has been run. *)
Ltac settle :=
  repeat split; intros;
  repeat match goal with
         | H : ∃ _, _ |- _ => destruct H
         | H : _ ∧ _ |- _ => destruct H
         | H : _ ∨ _ |- _ => destruct H
         end;
  simplify_eq/=; eauto; try congruence; try tauto.

(** A name that is none of the listed columns. *)
Ltac not_listed :=
  let Hin := fresh "Hin" in
  intros Hin;
  repeat (apply elem_of_cons in Hin as [Hin|Hin]; [discriminate Hin |]);
  by apply elem_of_nil in Hin.

Ltac run_query db :=
  unfold try_catch, try_next; rewrite ?bind_eq; unfold query, throw;
  destruct (fault db) eqn:?; simpl.

Lemma columns_project (cols : list string) (u : UserRow) :
  columns (project cols u) = cols.
Proof.
  unfold columns, project. rewrite <- list_fmap_compose.
  induction cols as [|c cols IH]; simpl; [done | by f_equal].
Qed.

Lemma field_absent (c : string) (r : row) : c ∉ columns r → field c r = None.
Proof.
  unfold field, columns. induction r as [|[k v] r IH]; simpl; [done |].
  intros Hn. apply not_elem_of_cons in Hn as [Hk Hr].
  rewrite bool_decide_eq_false_2 by (simpl; congruence). by apply IH.
Qed.

(** ** models/user.js *)

Section UserFacts.
Context `{Externals}.

Lemma register_fresh (a : RegisterArgs) (db : DB) :
  fault db = None → users db !! username a = None →
  User.register a db =
    (Return (Some (project ["username"; "password"; "first_name"; "last_name"; "phone"]
       {| u_username := username a;
          u_password := bcrypt_hash (password a) BCRYPT_WORK_FACTOR;
          u_first_name := first_name a; u_last_name := last_name a;
          u_phone := phone a; u_join_at := clock db;
          u_last_login_at := clock db |})),
     with_users (<[username a :=
       {| u_username := username a;
          u_password := bcrypt_hash (password a) BCRYPT_WORK_FACTOR;
          u_first_name := first_name a; u_last_name := last_name a;
          u_phone := phone a; u_join_at := clock db;
          u_last_login_at := clock db |}]> (users db)) db).
Proof.
  intros Hf Hu. unfold User.register, insert_user.
  unfold try_catch. rewrite bind_eq, query_up by done.
  by rewrite Hu.
Qed.

Lemma register_taken (a : RegisterArgs) (db : DB) :
  fault db = None → is_Some (users db !! username a) →
  User.register a db =
    (Throw (ExpressError "Username taken. Please pick another" 400), db).
Proof.
  intros Hf [u Hu]. unfold User.register, insert_user.
  unfold try_catch. rewrite bind_eq, query_up by done.
  by rewrite Hu.
Qed.

Lemma register_store_down (a : RegisterArgs) (db : DB) (code : string) :
  fault db = Some code → code ≠ "23505" →
  User.register a db = (Return None, db).
Proof.
  intros Hf Hc. unfold User.register, insert_user.
  unfold try_catch. rewrite bind_eq, (query_down _ _ code) by done.
  simpl. rewrite bool_decide_eq_false_2; [done | congruence].
Qed.

(** A value [register] returns is the row of the insert's returning list. *)
Lemma register_returns (a : RegisterArgs) (db : DB) (r : row) :
  (User.register a db).1 = Return (Some r) →
  fault db = None ∧ users db !! username a = None.
Proof.
  unfold User.register, insert_user. run_query db.
  - case_bool_decide; simpl; congruence.
  - destruct (users db !! username a); simpl; done.
Qed.

Lemma get_returns (name : jsstring) (db : DB) (r : row) :
  (User.get name db).1 = Return r →
  ∃ u, name ≫= (users db !!.) = Some u ∧
       r = project ["username"; "first_name"; "last_name"; "phone";
                    "join_at"; "last_login_at"] u.
Proof.
  unfold User.get, select_user. run_query db; [congruence |].
  destruct (name ≫= (users db !!.)) as [u|]; simpl; [|congruence].
  intros [= <-]. by exists u.
Qed.

Lemma all_returns (db : DB) (rs : list row) (r : row) :
  (User.all db).1 = Return rs → r ∈ rs →
  ∃ name u, users db !! name = Some u ∧
            r = project ["username"; "first_name"; "last_name"; "phone"] u.
Proof.
  unfold User.all, select_users. run_query db; [congruence |].
  intros [= <-] Hr. apply list_elem_of_fmap in Hr as (u & -> & Hu).
  apply list_elem_of_fmap in Hu as ([name u'] & -> & Hu).
  apply elem_of_map_to_list in Hu. by exists name, u'.
Qed.

(** The other operations let a failure of the store through. *)
Lemma store_down_propagates (db : DB) (code : string)
    (name username password : jsstring) (who : string) :
  fault db = Some code →
  User.get name db = (Throw (PgError code), db)
  ∧ User.all db = (Throw (PgError code), db)
  ∧ User.messagesFrom who db = (Throw (PgError code), db)
  ∧ User.messagesTo who db = (Throw (PgError code), db)
  ∧ (falsy username = false → falsy password = false →
     User.authenticate username password db = (Throw (PgError code), db)).
Proof.
  intros Hf.
  unfold User.get, User.all, User.messagesFrom, User.messagesTo,
    User.authenticate, select_user, select_users, select_messages_from,
    select_messages_to.
  split_and!; try (intros -> ->; simpl);
    by rewrite bind_eq, (query_down _ _ code).
Qed.

End UserFacts.

Lemma falsy_spec (v : jsstring) : falsy v = true ↔ empty_or_absent v.
Proof.
  unfold falsy, empty_or_absent. destruct v as [s|]; [|settle].
  rewrite bool_decide_eq_true. settle.
Qed.

Section UserClaims.
Context `{Externals}.

(** C1 (as amended): [get] and [all] return projections of the stored user
    with the columns username, first_name, last_name, phone (and join_at,
    last_login_at for [get]) and no password column; the row [register]
    returns has the columns username, password, first_name, last_name,
    phone, and its password is the hash that was stored. *)
Theorem C1_profile_columns (db : DB) :
  (∀ name r, (User.get name db).1 = Return r →
     columns r = ["username"; "first_name"; "last_name"; "phone";
                  "join_at"; "last_login_at"]
     ∧ field "password" r = None)
  ∧ (∀ rs r, (User.all db).1 = Return rs → r ∈ rs →
     columns r = ["username"; "first_name"; "last_name"; "phone"]
     ∧ field "password" r = None)
  ∧ (∀ a r, (User.register a db).1 = Return (Some r) →
     columns r = ["username"; "password"; "first_name"; "last_name"; "phone"]
     ∧ field "password" r
       = Some (SqlText (bcrypt_hash (password a) BCRYPT_WORK_FACTOR))
     ∧ u_password <$> users (User.register a db).2 !! username a
       = Some (bcrypt_hash (password a) BCRYPT_WORK_FACTOR)).
Proof.
  split_and!.
  - intros name r (u & _ & ->)%get_returns.
    split; [apply columns_project |].
    apply field_absent. rewrite columns_project. not_listed.
  - intros rs r Hrs (name & u & _ & ->)%(all_returns _ _ _ Hrs).
    split; [apply columns_project |].
    apply field_absent. rewrite columns_project. not_listed.
  - intros a r Hr. destruct (register_returns _ _ _ Hr) as [Hf Hu].
    rewrite register_fresh in Hr |- * by done. simpl in *.
    injection Hr as <-. split_and!; [done | done |].
    by rewrite lookup_insert_eq.
Qed.

(** C6: registering a username that already exists fails with the 400
    "Username taken" error, not with the store's 23505, and leaves the store,
    hence the profile already registered, as it was. *)
Theorem C6_duplicate_username (a : RegisterArgs) (db : DB) (u : UserRow) :
  fault db = None → users db !! username a = Some u →
  User.register a db =
    (Throw (ExpressError "Username taken. Please pick another" 400), db)
  ∧ (∀ code, (User.register a db).1 ≠ Throw (PgError code))
  ∧ users (User.register a db).2 !! username a = Some u.
Proof.
  intros Hf Hu. rewrite register_taken by eauto. by split_and!.
Qed.

(** C7: [authenticate] fails with the 400 "Username and password required"
    error exactly when an argument is empty or absent; for an unknown
    username it returns false; it returns true only when the password
    verifies against the stored hash of that user. *)
Theorem C7_authenticate (username password : jsstring) (db : DB) :
  ((User.authenticate username password db).1
     = Throw (ExpressError "Username and password required" 400)
   ↔ empty_or_absent username ∨ empty_or_absent password)
  ∧ (¬ empty_or_absent username → ¬ empty_or_absent password →
     fault db = None → username ≫= (users db !!.) = None →
     User.authenticate username password db = (Return false, db))
  ∧ ((User.authenticate username password db).1 = Return true →
     ∃ name u, username = Some name ∧ users db !! name = Some u
               ∧ bcrypt_compare (str password) (u_password u) = true).
Proof.
  unfold User.authenticate, select_user. rewrite <- !falsy_spec.
  destruct (falsy username) eqn:Hu; simpl.
  { split_and!; [settle | settle | done]. }
  destruct (falsy password) eqn:Hp; simpl.
  { split_and!; [settle | settle | done]. }
  run_query db.
  { split_and!; [settle | congruence | done]. }
  destruct (username ≫= (users db !!.)) as [u|] eqn:Hlook; simpl.
  - destruct (bcrypt_compare _ _) eqn:Hc; simpl;
      (split_and!; [settle | done |]); [|done].
    intros _. destruct username as [name|]; [|done].
    exists name, u. by split_and!.
  - split_and!; [settle | done | done].
Qed.

End UserClaims.

(** C1 (as stated) fails: the row [register] returns for a new user has a
    password field, and it holds the hash stored for that user. *)
Lemma C1_register_returns_hash :
  ∃ r u, (@User.register toy alice db0).1 = Return (Some r)
         ∧ users (@User.register toy alice db0).2 !! "alice" = Some u
         ∧ field "password" r = Some (SqlText (u_password u)).
Proof. eexists _, _. split_and!; vm_compute; reflexivity. Qed.

Lemma C1_profile_columns_witness :
  (∃ r, (User.get (Some "alice") db1).1 = Return r ∧ field "password" r = None)
  ∧ (∃ rs r, (User.all db1).1 = Return rs ∧ r ∈ rs ∧ field "password" r = None)
  ∧ (∃ r, (@User.register toy bob db1).1 = Return (Some r)
          ∧ field "password" r = Some (SqlText "$2b$pw2")).
Proof.
  destruct (@C1_profile_columns toy db1) as (Hget & Hall & Hreg).
  split_and!.
  - exists (project ["username"; "first_name"; "last_name"; "phone";
                     "join_at"; "last_login_at"] alice_row).
    split; [vm_compute; reflexivity |].
    eapply (Hget (Some "alice")). vm_compute; reflexivity.
  - eexists _, (project ["username"; "first_name"; "last_name"; "phone"] alice_row).
    split; [vm_compute; reflexivity |]. split; [by left |].
    eapply Hall; [vm_compute; reflexivity | by left].
  - exists (project ["username"; "password"; "first_name"; "last_name"; "phone"] bob_row).
    split; [vm_compute; reflexivity |].
    eapply (Hreg bob). vm_compute; reflexivity.
Defined.

Lemma C6_duplicate_username_witness :
  ∃ u, users db1 !! "alice" = Some u
       ∧ @User.register toy alice db1 =
           (Throw (ExpressError "Username taken. Please pick another" 400), db1)
       ∧ users (@User.register toy alice db1).2 !! "alice" = Some u.
Proof.
  exists alice_row.
  split; [vm_compute; reflexivity |].
  destruct (@C6_duplicate_username toy alice db1 _ eq_refl
              ltac:(vm_compute; reflexivity))
    as (Hthrow & _ & Hsame).
  split; [exact Hthrow | exact Hsame].
Defined.

Lemma C7_authenticate_witness :
  (@User.authenticate toy None (Some "x") db1).1
    = Throw (ExpressError "Username and password required" 400)
  ∧ @User.authenticate toy (Some "nouser") (Some "x") db1 = (Return false, db1)
  ∧ ∃ name u, Some "alice" = Some name ∧ users db1 !! name = Some u
              ∧ @bcrypt_compare toy "pw1" (u_password u) = true.
Proof.
  split_and!.
  - apply (@C7_authenticate toy None (Some "x") db1). left. by left.
  - apply (@C7_authenticate toy (Some "nouser") (Some "x") db1).
    + intros [|]; discriminate.
    + intros [|]; discriminate.
    + reflexivity.
    + vm_compute; reflexivity.
  - apply (@C7_authenticate toy (Some "alice") (Some "pw1") db1).
    vm_compute; reflexivity.
Defined.

(** C8: at a store that rejects the insert with a code other than 23505,
    [register] neither returns a user nor throws: it returns undefined, and the
    route then sends no response and hands no error to [next]. *)
Theorem C8_register_swallows_failure :
  @User.register toy alice (failing "57P01" db0) = (Return None, failing "57P01" db0)
  ∧ @AuthRoutes.register toy
      (anonymous 0 alice_form) (failing "57P01" db0)
    = (Pending, failing "57P01" db0).
Proof. split; vm_compute; reflexivity. Qed.

(** ** models/message.js *)

Lemma head_map {A B} (f : A → B) (l : list A) : head (f <$> l) = f <$> head l.
Proof. by destruct l. Qed.

Lemma head_filter_id (l : list MsgRow) (m : MsgRow) :
  NoDup (m_id <$> l) → m ∈ l →
  head (filter (λ x, m_id x = m_id m) l) = Some m.
Proof.
  induction l as [|x l IH]; simpl; intros Hnd Hin.
  - by apply elem_of_nil in Hin.
  - apply NoDup_cons in Hnd as [Hx Hnd].
    apply elem_of_cons in Hin as [->|Hin].
    + by rewrite filter_cons_True.
    + rewrite filter_cons_False; [by apply IH |].
      intros Heq. apply Hx. rewrite Heq. by apply list_elem_of_fmap_2.
Qed.

Lemma mark_id (t id : Z) (m : MsgRow) : m_id (mark t id m) = m_id m.
Proof. unfold mark. by case_bool_decide. Qed.

Lemma mark_ids (t id : Z) (l : list MsgRow) :
  m_id <$> (mark t id <$> l) = m_id <$> l.
Proof.
  rewrite <- list_fmap_compose. apply list_fmap_ext.
  intros i x _. apply mark_id.
Qed.

Lemma get_found (db : DB) (m : MsgRow) :
  fault db = None → NoDup (m_id <$> messages db) → m ∈ messages db →
  Message.get (m_id m) db = (Return (detail (users db) m), db).
Proof.
  intros Hf Hnd Hin. unfold Message.get.
  rewrite bind_eq, query_up by done.
  rewrite head_map, head_filter_id by done. reflexivity.
Qed.

Lemma markRead_found (db : DB) (m : MsgRow) :
  fault db = None → NoDup (m_id <$> messages db) → m ∈ messages db →
  Message.markRead (m_id m) db =
    (Return {| rr_id := m_id m; rr_read_at := Some (clock db) |},
     with_messages (mark (clock db) (m_id m) <$> messages db) (next_id db) db).
Proof.
  intros Hf Hnd Hin. unfold Message.markRead.
  rewrite bind_eq, query_up by done.
  rewrite head_map.
  pose proof (head_filter_id (mark (clock db) (m_id m) <$> messages db)
                (mark (clock db) (m_id m) m)) as Hhead.
  rewrite mark_id in Hhead. rewrite Hhead.
  - simpl. unfold mark. rewrite bool_decide_eq_true_2 by done. reflexivity.
  - by rewrite mark_ids.
  - by apply list_elem_of_fmap_2.
Qed.

Lemma ids_fresh_create (a : CreateArgs) (db : DB) :
  fault db = None → ids_fresh db → ids_fresh (Message.create a db).2.
Proof.
  intros Hf [Hnd Hlt]. unfold Message.create. rewrite query_up by done.
  unfold ids_fresh. simpl. split.
  - rewrite fmap_app. apply NoDup_app. split_and!; [done | | apply NoDup_singleton].
    intros i Hi ->%list_elem_of_singleton.
    apply list_elem_of_fmap in Hi as (m & Hm & Hin).
    rewrite Forall_forall in Hlt. specialize (Hlt m Hin). simpl in Hm. lia.
  - apply Forall_app. split.
    + eapply Forall_impl; [exact Hlt |]. simpl. intros m Hm. lia.
    + apply Forall_singleton. simpl. lia.
Qed.

Lemma ids_fresh_markRead (id : Z) (db : DB) :
  ids_fresh db → ids_fresh (Message.markRead id db).2.
Proof.
  intros [Hnd Hlt]. unfold Message.markRead. rewrite bind_eq.
  unfold query. destruct (fault db); [done |]. simpl.
  assert (ids_fresh
    (with_messages (mark (clock db) id <$> messages db) (next_id db) db)) as Hfresh.
  { unfold ids_fresh. simpl. rewrite mark_ids. split; [done |].
    apply Forall_fmap. eapply Forall_impl; [exact Hlt |].
    intros m Hm. simpl. by rewrite mark_id. }
  by destruct (head _).
Qed.

(** ** routes/messages.js *)

Lemma get_id_no_token (req : Request) (db : DB) (msg : string) :
  req_user req = None →
  (MessageRoutes.get_id req db).1 ≠ Next (ExpressError msg 401).
Proof.
  intros Hu. unfold MessageRoutes.get_id, Message.get, user_username.
  rewrite Hu. run_query db; [done |].
  destruct (head _); simpl; done.
Qed.

Lemma post_id_read_no_token (req : Request) (db : DB) (msg : string) :
  req_user req = None →
  (MessageRoutes.post_id_read req db).1 ≠ Next (ExpressError msg 401).
Proof.
  intros Hu. unfold MessageRoutes.post_id_read, Message.get, user_username.
  rewrite Hu. run_query db; [done |].
  destruct (head _); simpl; done.
Qed.

Lemma post_no_token (req : Request) (db : DB) :
  req_user req = None →
  MessageRoutes.post req db = (Next (ExpressError "Unauthorized" 401), db).
Proof. intros Hu. unfold MessageRoutes.post, ensureLoggedIn. by rewrite Hu. Qed.



(** The gate of [GET /:id], for a caller whose token carries the username
    [v]: the message is shown exactly when ToPrimitive of [v] is the sender's
    or the recipient's username, and the 401 "Not Authorized" error is thrown
    otherwise. *)
Lemma get_id_gate (req : Request) (db : DB) (v : jsval) (m : MsgRow) :
  fault db = None → NoDup (m_id <$> messages db) → m ∈ messages db →
  params_id req = m_id m → req_user req = Some {| p_username := v |} →
  ((∃ d, (MessageRoutes.get_id req db).1 = Json d)
     ↔ to_primitive v = m_from_username m
       ∨ m_to_username m = Some (to_primitive v))
  ∧ (to_primitive v = m_from_username m
     ∨ m_to_username m = Some (to_primitive v) →
       MessageRoutes.get_id req db = (Json (detail (users db) m), db))
  ∧ (to_primitive v ≠ m_from_username m →
     m_to_username m ≠ Some (to_primitive v) →
       MessageRoutes.get_id req db = (Next (ExpressError "Not Authorized" 401), db)).
Proof.
  intros Hf Hnd Hin Hid Hu.
  unfold MessageRoutes.get_id, user_username, try_next.
  rewrite Hid, Hu, bind_eq, get_found by done. rewrite bind_eq. simpl.
  unfold loose_eq. generalize (to_primitive v). intros C.
  destruct (m_to_username m) as [to|]; simpl.
  - destruct (decide (C = m_from_username m)) as [Hfrom|Hfrom];
      destruct (decide (C = to)) as [Hto|Hto];
      rewrite ?(bool_decide_eq_true_2 _ Hfrom), ?(bool_decide_eq_false_2 _ Hfrom),
              ?(bool_decide_eq_true_2 _ Hto), ?(bool_decide_eq_false_2 _ Hto);
      simpl; (split_and!; [ settle | settle | settle ]).
  - destruct (decide (C = m_from_username m)) as [Hfrom|Hfrom];
      rewrite ?(bool_decide_eq_true_2 _ Hfrom), ?(bool_decide_eq_false_2 _ Hfrom);
      simpl; (split_and!; [ settle | settle | settle ]).
Qed.

(** The gate of [POST /:id/read], for a caller whose token carries the
    username [v]: the message is marked exactly when ToPrimitive of [v] is the
    recipient's username; otherwise the 401 "Not Authorized" error is thrown
    and the store is left as it was. *)
Lemma post_id_read_gate (req : Request) (db : DB) (v : jsval) (m : MsgRow) :
  fault db = None → NoDup (m_id <$> messages db) → m ∈ messages db →
  params_id req = m_id m → req_user req = Some {| p_username := v |} →
  ((∃ r, (MessageRoutes.post_id_read req db).1 = Json r)
     ↔ m_to_username m = Some (to_primitive v))
  ∧ (m_to_username m = Some (to_primitive v) →
       MessageRoutes.post_id_read req db =
         (Json {| rr_id := m_id m; rr_read_at := Some (clock db) |},
          with_messages (mark (clock db) (m_id m) <$> messages db) (next_id db) db))
  ∧ (m_to_username m ≠ Some (to_primitive v) →
       MessageRoutes.post_id_read req db
         = (Next (ExpressError "Not Authorized" 401), db)).
Proof.
  intros Hf Hnd Hin Hid Hu.
  unfold MessageRoutes.post_id_read, user_username, try_next.
  rewrite Hid, Hu, bind_eq, get_found by done. rewrite bind_eq. simpl.
  unfold loose_eq. generalize (to_primitive v). intros C.
  destruct (m_to_username m) as [to|]; simpl.
  - destruct (decide (C = to)) as [Hto|Hto];
      rewrite ?(bool_decide_eq_true_2 _ Hto), ?(bool_decide_eq_false_2 _ Hto);
      rewrite ?bind_eq, ?markRead_found by done; simpl;
      (split_and!; [ settle | settle | settle ]).
  - split_and!; [ settle | settle | settle ].
Qed.

(** ** models/user.js: messages of a user *)

Lemma filter_none {A} (P : A → Prop) `{!∀ x, Decision (P x)} (l : list A) :
  Forall (λ x, ¬ P x) l → filter P l = [].
Proof.
  induction 1 as [|x l Hx _ IH]; [done |].
  by rewrite filter_cons_False.
Qed.

(** C9: [messagesFrom] and [messagesTo] never throw the 404 "messages not
    found" error, and when the store answers they return a list, which is
    empty when no message matches the username. *)
Theorem C9_messages_never_not_found (username : string) (db : DB) :
  (∀ msg, (User.messagesFrom username db).1 ≠ Throw (ExpressError msg 404))
  ∧ (∀ msg, (User.messagesTo username db).1 ≠ Throw (ExpressError msg 404))
  ∧ (fault db = None →
     ∃ sent received,
       User.messagesFrom username db = (Return sent, db)
       ∧ User.messagesTo username db = (Return received, db)
       ∧ (Forall (λ m, m_from_username m ≠ username) (messages db) → sent = [])
       ∧ (Forall (λ m, m_to_username m ≠ Some username) (messages db) →
          received = [])).
Proof.
  unfold User.messagesFrom, User.messagesTo, select_messages_from,
    select_messages_to, array_falsy.
  run_query db; split_and!; try done.
  intros _. eexists _, _. split_and!; try reflexivity.
  - intros Hnone. by rewrite filter_none.
  - intros Hnone. by rewrite filter_none.
Qed.

(** ** routes/auth.js *)

Section AuthClaims.
Context `{Externals}.

(** C10: a successful [POST /login] or [POST /register] responds with the
    two fields message and token, in this order and with nothing else; the
    token is signed from the username of the request, and no part of the
    record that [authenticate] or [register] produced is in the response. *)
Theorem C10_auth_responses (req : Request) (db : DB) (j : list (string * string)) :
  ((AuthRoutes.login req db).1 = Json j →
     j = [("message", "Logged in!");
          ("token", jwt_sign (req_body req !! "username") SECRET_KEY)])
  ∧ ((AuthRoutes.register req db).1 = Json j →
     j = [("message", "registered!");
          ("token", jwt_sign (req_body req !! "username") SECRET_KEY)]).
Proof.
  split.
  - unfold AuthRoutes.login, try_next.
    destruct (falsy _ || falsy _); [done |].
    rewrite bind_eq.
    destruct (User.authenticate _ _ db) as [[[|]|e] db']; simpl; [| done | done].
    rewrite ?bind_eq. simpl. by intros [= <-].
  - unfold AuthRoutes.register, try_next.
    destruct (falsy _ || falsy _ || falsy _ || falsy _ || falsy _); [done |].
    rewrite bind_eq.
    destruct (User.register _ db) as [[[r|]|e] db']; simpl; [| done | done].
    rewrite ?bind_eq. simpl. by intros [= <-].
Qed.

End AuthClaims.

Lemma db3_messages : messages db3 = [m1].
Proof. vm_compute. reflexivity. Qed.

Lemma db3_ids : NoDup (m_id <$> messages db3).
Proof. rewrite db3_messages. apply NoDup_singleton. Qed.

(** C2: without a verified token [POST /] answers 401, but [GET /:id] and
    [POST /:id/read] run without the login check: for an existing message they
    fail on [req.user.username] with a TypeError, for an absent one with 404. *)
Theorem C2_no_token_not_401 :
  (MessageRoutes.get_id (anonymous 1 ∅) db3).1
    = Next (TypeError "Cannot read properties of undefined (reading 'username')")
  ∧ (MessageRoutes.post_id_read (anonymous 1 ∅) db3).1
    = Next (TypeError "Cannot read properties of undefined (reading 'username')")
  ∧ (MessageRoutes.get_id (anonymous 2 ∅) db3).1
    = Next (ExpressError "message not found" 404)
  ∧ (MessageRoutes.post_id_read (anonymous 2 ∅) db3).1
    = Next (ExpressError "message not found" 404)
  ∧ (MessageRoutes.post (anonymous 0 hi_bob) db3).1
    = Next (ExpressError "Unauthorized" 401).
Proof. split_and!; vm_compute; reflexivity. Qed.


(** A string caller meets the gates as intended: bob and alice see the
    message, carol does not, and only bob marks it. *)
Lemma gates_string_callers :
  MessageRoutes.get_id (as_user "bob" 1 ∅) db3 = (Json (detail (users db3) m1), db3)
  ∧ MessageRoutes.get_id (as_user "alice" 1 ∅) db3
    = (Json (detail (users db3) m1), db3)
  ∧ MessageRoutes.get_id (as_user "carol" 1 ∅) db3
    = (Next (ExpressError "Not Authorized" 401), db3)
  ∧ (MessageRoutes.post_id_read (as_user "bob" 1 ∅) db3).1
    = Json {| rr_id := 1; rr_read_at := Some 1000 |}
  ∧ MessageRoutes.post_id_read (as_user "alice" 1 ∅) db3
    = (Next (ExpressError "Not Authorized" 401), db3).
Proof.
  assert (m1 ∈ messages db3) as Hin by (rewrite db3_messages; by left).
  split_and!.
  - apply (get_id_gate (as_user "bob" 1 ∅) db3 (JStr "bob") m1 eq_refl db3_ids Hin
             eq_refl eq_refl). by right.
  - apply (get_id_gate (as_user "alice" 1 ∅) db3 (JStr "alice") m1 eq_refl db3_ids
             Hin eq_refl eq_refl). by left.
  - apply (get_id_gate (as_user "carol" 1 ∅) db3 (JStr "carol") m1 eq_refl db3_ids
             Hin eq_refl eq_refl); discriminate.
  - destruct (post_id_read_gate (as_user "bob" 1 ∅) db3 (JStr "bob") m1 eq_refl
                db3_ids Hin eq_refl eq_refl) as (_ & Hok & _).
    by rewrite (Hok eq_refl).
  - destruct (post_id_read_gate (as_user "alice" 1 ∅) db3 (JStr "alice") m1 eq_refl
                db3_ids Hin eq_refl eq_refl) as (_ & _ & Hno).
    apply Hno. discriminate.
Qed.

(** C4: a caller whose verified token carries the array ["alice"] as its
    username is neither the sender "alice" nor the recipient "bob" of the
    message, yet [GET /:id] shows it: the loose comparison turns the array
    into the string "alice". *)
Theorem C4_array_caller_views :
  JArr [Some (JStr "alice")] ≠ JStr (m_from_username m1)
  ∧ Some (JArr [Some (JStr "alice")]) ≠ (JStr <$> m_to_username m1)
  ∧ MessageRoutes.get_id (as_caller (JArr [Some (JStr "alice")]) 1 ∅) db3
    = (Json (detail (users db3) m1), db3)
  ∧ MessageRoutes.get_id (as_caller (JArr [Some (JStr "bob")]) 1 ∅) db3
    = (Json (detail (users db3) m1), db3).
Proof.
  split_and!; [discriminate | discriminate | |]; vm_compute; reflexivity.
Qed.

(** C5: a caller whose verified token carries the array ["bob"] as its
    username is not the recipient "bob" of the message, yet [POST /:id/read]
    marks the message as read and sets its [read_at]. *)
Theorem C5_array_caller_marks_read :
  Some (JArr [Some (JStr "bob")]) ≠ (JStr <$> m_to_username m1)
  ∧ (MessageRoutes.post_id_read (as_caller (JArr [Some (JStr "bob")]) 1 ∅) db3).1
    = Json {| rr_id := 1; rr_read_at := Some 1000 |}
  ∧ m_read_at <$>
      head (messages
        (MessageRoutes.post_id_read (as_caller (JArr [Some (JStr "bob")]) 1 ∅) db3).2)
    = Some (Some 1000)
  ∧ m_read_at m1 = None.
Proof.
  split_and!; [discriminate | | | reflexivity]; vm_compute; reflexivity.
Qed.

Lemma C9_messages_never_not_found_witness :
  ∃ sent received,
    User.messagesFrom "carol" db3 = (Return sent, db3)
    ∧ User.messagesTo "carol" db3 = (Return received, db3)
    ∧ sent = [] ∧ received = [].
Proof.
  destruct (C9_messages_never_not_found "carol" db3) as (_ & _ & Hlist).
  destruct (Hlist eq_refl) as (sent & received & Hs & Hr & Hse & Hre).
  exists sent, received. split_and!; [done | done | |].
  - apply Hse. rewrite db3_messages. by repeat constructor.
  - apply Hre. rewrite db3_messages. by repeat constructor.
Defined.

Lemma C10_auth_responses_witness :
  (@AuthRoutes.login toy
     (anonymous 0 {[ "username" := "alice"; "password" := "pw1" ]}) db3).1
  = Json [("message", "Logged in!"); ("token", "jwt:alice:secret")]
  ∧ (@AuthRoutes.register toy (anonymous 0 alice_form) db0).1
  = Json [("message", "registered!"); ("token", "jwt:alice:secret")].
Proof.
  split.
  - assert (∃ j, (@AuthRoutes.login toy
       (anonymous 0 {[ "username" := "alice"; "password" := "pw1" ]}) db3).1
       = Json j) as [j Hj] by (eexists; vm_compute; reflexivity).
    rewrite Hj. f_equal.
    by apply (@C10_auth_responses toy _ _ _) in Hj.
  - assert (∃ j, (@AuthRoutes.register toy (anonymous 0 alice_form) db0).1
       = Json j) as [j Hj] by (eexists; vm_compute; reflexivity).
    rewrite Hj. f_equal.
    by apply (@C10_auth_responses toy _ _ _) in Hj.
Defined.

(** * Further properties of models/user.js *)

Section UserMore.
Context `{Externals}.

Lemma authenticate_up (username password : jsstring) (db : DB) :
  fault db = None → falsy username = false → falsy password = false →
  User.authenticate username password db =
    (Return (match username ≫= (users db !!.) with
             | Some u => bcrypt_compare (str password) (u_password u)
             | None => false
             end), db).
Proof.
  intros Hf Hu Hp. unfold User.authenticate, select_user.
  rewrite Hu, Hp. simpl. rewrite bind_eq, query_up by done.
  destruct (username ≫= (users db !!.)) as [u|]; simpl; [|done].
  change (text_of (field "password" (project ["username"; "password"] u)))
    with (u_password u).
  by destruct (bcrypt_compare _ _).
Qed.

Lemma get_up (name : jsstring) (db : DB) :
  fault db = None →
  User.get name db =
    match name ≫= (users db !!.) with
    | Some u => (Return (project get_columns u), db)
    | None => (Throw (ExpressError "user not found" 404), db)
    end.
Proof.
  intros Hf. unfold User.get, select_user. rewrite bind_eq, query_up by done.
  by destruct (name ≫= (users db !!.)).
Qed.

(** X1: while the store answers, [get] fails with the 404 "user not found"
    error exactly when no user has the username (an absent argument
    included), and otherwise returns that user's stored username, names,
    phone and both timestamps, leaving the store as it was. *)
Theorem X1_get_found_or_404 (name : jsstring) (db : DB) :
  fault db = None →
  ((User.get name db).1 = Throw (ExpressError "user not found" 404)
     ↔ name ≫= (users db !!.) = None)
  ∧ (User.get None db).1 = Throw (ExpressError "user not found" 404)
  ∧ (∀ u, name ≫= (users db !!.) = Some u →
       ∃ r, User.get name db = (Return r, db)
            ∧ field "username" r = Some (SqlText (u_username u))
            ∧ field "first_name" r = Some (SqlText (u_first_name u))
            ∧ field "last_name" r = Some (SqlText (u_last_name u))
            ∧ field "phone" r = Some (SqlText (u_phone u))
            ∧ field "join_at" r = Some (SqlTime (u_join_at u))
            ∧ field "last_login_at" r = Some (SqlTime (u_last_login_at u))).
Proof.
  intros Hf. rewrite !get_up by done. split_and!.
  - destruct (name ≫= (users db !!.)); simpl; split; done.
  - done.
  - intros u ->. eexists. split; [done |]. by split_and!.
Qed.

(** X2: after a successful [register], [get] of the new username returns the
    names and phone that were registered, with [join_at] and [last_login_at]
    both equal to the instant of the registration. *)
Theorem X2_register_then_get (a : RegisterArgs) (db : DB) :
  fault db = None → users db !! username a = None →
  ∃ r, User.get (Some (username a)) (User.register a db).2
         = (Return r, (User.register a db).2)
       ∧ field "username" r = Some (SqlText (username a))
       ∧ field "first_name" r = Some (SqlText (first_name a))
       ∧ field "last_name" r = Some (SqlText (last_name a))
       ∧ field "phone" r = Some (SqlText (phone a))
       ∧ field "join_at" r = Some (SqlTime (clock db))
       ∧ field "last_login_at" r = Some (SqlTime (clock db))
       ∧ field "password" r = None.
Proof.
  intros Hf Hu. rewrite register_fresh by done. simpl.
  rewrite get_up by done. simpl. rewrite lookup_insert_eq.
  eexists. split; [done |]. by split_and!.
Qed.

(** X3: after a successful [register], [authenticate] with the registered
    username and any non-empty password returns what [bcrypt.compare] says of
    that password against the hash made at registration, and changes nothing
    in the store. *)
Theorem X3_register_then_authenticate (a : RegisterArgs) (pw : string) (db : DB) :
  fault db = None → users db !! username a = None →
  username a ≠ "" → pw ≠ "" →
  User.authenticate (Some (username a)) (Some pw) (User.register a db).2
  = (Return (bcrypt_compare pw (bcrypt_hash (password a) BCRYPT_WORK_FACTOR)),
     (User.register a db).2).
Proof.
  intros Hf Hu Hname Hpw. rewrite register_fresh by done. simpl.
  rewrite authenticate_up; simpl; try done.
  - by rewrite lookup_insert_eq.
  - by rewrite bool_decide_eq_false_2.
  - by rewrite bool_decide_eq_false_2.
Qed.

(** X4: [authenticate], [get], [all], [messagesFrom] and [messagesTo] never
    change the store, whatever their arguments and outcome; in particular
    [authenticate] does not stamp [last_login_at]. *)
Theorem X4_reads_leave_store (username password name : jsstring) (who : string)
    (db : DB) :
  (User.authenticate username password db).2 = db
  ∧ (User.get name db).2 = db
  ∧ (User.all db).2 = db
  ∧ (User.messagesFrom who db).2 = db
  ∧ (User.messagesTo who db).2 = db.
Proof.
  unfold User.authenticate, User.get, User.all, User.messagesFrom,
    User.messagesTo, select_user, select_users, select_messages_from,
    select_messages_to, array_falsy.
  split_and!.
  - destruct (falsy username || falsy password); [done |].
    run_query db; [done |].
    destruct (username ≫= (users db !!.)); simpl; [|done].
    by destruct (bcrypt_compare _ _).
  - run_query db; [done |]. by destruct (name ≫= (users db !!.)).
  - by run_query db.
  - by run_query db.
  - by run_query db.
Qed.

End UserMore.

Lemma with_users_same (db : DB) : with_users (users db) db = db.
Proof. by destruct db. Qed.

Lemma updateLoginTimestamp_up (name : string) (db : DB) :
  fault db = None →
  User.updateLoginTimestamp (Some name) db =
    (Return tt, with_users (alter (stamp_login (clock db)) name (users db)) db).
Proof.
  intros Hf. unfold User.updateLoginTimestamp, update_last_login.
  by rewrite bind_eq, query_up.
Qed.

(** X5: while the store answers, [updateLoginTimestamp] sets the
    [last_login_at] of the named user to the current instant and keeps that
    user's other columns, every other user and all messages; for a username
    nobody has it succeeds all the same and the store is unchanged. *)
Theorem X5_updateLoginTimestamp_effect (name : string) (db : DB) :
  fault db = None →
  (User.updateLoginTimestamp (Some name) db).1 = Return tt
  ∧ (∀ u, users db !! name = Some u →
       ∃ u', users (User.updateLoginTimestamp (Some name) db).2 !! name = Some u'
             ∧ u_last_login_at u' = clock db
             ∧ u_join_at u' = u_join_at u
             ∧ u_password u' = u_password u
             ∧ u_username u' = u_username u
             ∧ u_first_name u' = u_first_name u
             ∧ u_last_name u' = u_last_name u
             ∧ u_phone u' = u_phone u)
  ∧ (∀ other, other ≠ name →
       users (User.updateLoginTimestamp (Some name) db).2 !! other
       = users db !! other)
  ∧ messages (User.updateLoginTimestamp (Some name) db).2 = messages db
  ∧ (users db !! name = None →
       User.updateLoginTimestamp (Some name) db = (Return tt, db)).
Proof.
  intros Hf. rewrite updateLoginTimestamp_up by done. simpl. split_and!.
  - done.
  - intros u Hu. exists (stamp_login (clock db) u).
    rewrite lookup_alter_eq, Hu. by split_and!.
  - intros other Hne. by rewrite lookup_alter_ne.
  - done.
  - intros Hu. f_equal.
    assert (alter (stamp_login (clock db)) name (users db) = users db) as ->.
    { apply map_eq. intros k. destruct (decide (k = name)) as [->|Hne].
      - by rewrite lookup_alter_eq, Hu.
      - by rewrite lookup_alter_ne. }
    apply with_users_same.
Qed.

Section UserFrame.
Context `{Externals}.

Lemma register_cases (a : RegisterArgs) (db : DB) :
  (User.register a db).2 = db
  ∨ (users db !! username a = None
     ∧ User.register a db =
       (Return (Some (project ["username"; "password"; "first_name"; "last_name"; "phone"]
         {| u_username := username a;
            u_password := bcrypt_hash (password a) BCRYPT_WORK_FACTOR;
            u_first_name := first_name a; u_last_name := last_name a;
            u_phone := phone a; u_join_at := clock db;
            u_last_login_at := clock db |})),
        with_users (<[username a :=
         {| u_username := username a;
            u_password := bcrypt_hash (password a) BCRYPT_WORK_FACTOR;
            u_first_name := first_name a; u_last_name := last_name a;
            u_phone := phone a; u_join_at := clock db;
            u_last_login_at := clock db |}]> (users db)) db)).
Proof.
  destruct (fault db) as [code|] eqn:Hf.
  - left. unfold User.register, insert_user, try_catch.
    rewrite bind_eq, (query_down _ _ code) by done. simpl.
    by case_bool_decide.
  - destruct (users db !! username a) as [u|] eqn:Hu.
    + left. by rewrite register_taken by eauto.
    + right. split; [done |]. by apply register_fresh.
Qed.

(** X6: whatever its outcome, [register] leaves every user under another
    username and all messages as they were, and never replaces a user who
    already has the username. *)
Theorem X6_register_frame (a : RegisterArgs) (db : DB) :
  (∀ other, other ≠ username a →
     users (User.register a db).2 !! other = users db !! other)
  ∧ messages (User.register a db).2 = messages db
  ∧ (∀ u, users db !! username a = Some u →
       users (User.register a db).2 !! username a = Some u).
Proof.
  destruct (register_cases a db) as [->|[Hu ->]]; [done |]. simpl.
  split_and!; [| done | congruence].
  intros other Hne. by rewrite lookup_insert_ne.
Qed.

(** X7: [register] and [updateLoginTimestamp] keep every stored user under
    its own username, so the row [get] returns for a username carries that
    username. *)
Theorem X7_users_keyed (a : RegisterArgs) (name : jsstring) (db : DB) :
  users_keyed db →
  users_keyed (User.register a db).2
  ∧ users_keyed (User.updateLoginTimestamp name db).2
  ∧ (∀ n r, (User.get (Some n) db).1 = Return r →
       field "username" r = Some (SqlText n)).
Proof.
  intros Hk. split_and!.
  - destruct (register_cases a db) as [->|[Hu ->]]; [done |].
    unfold users_keyed. simpl.
    intros n u. destruct (decide (n = username a)) as [->|Hne].
    + rewrite lookup_insert_eq. by intros [= <-].
    + rewrite lookup_insert_ne by done. apply Hk.
  - unfold User.updateLoginTimestamp, update_last_login. rewrite bind_eq.
    unfold query. destruct (fault db); [done |]. simpl.
    destruct name as [n|]; [|done]. unfold users_keyed. simpl.
    intros k u. destruct (decide (k = n)) as [->|Hne].
    + rewrite lookup_alter_eq. destruct (users db !! n) as [u0|] eqn:Hu0; [|done].
      simpl. intros [= <-]. simpl. by apply Hk.
    + rewrite lookup_alter_ne by done. apply Hk.
  - intros n r (u & Hu & ->)%get_returns. simpl in Hu.
    by rewrite <- (Hk n u Hu).
Qed.

End UserFrame.

(** X8: while the store answers, [all] returns one row per stored user, the
    row of every stored user among them, and changes nothing. *)
Theorem X8_all_complete (db : DB) :
  fault db = None →
  ∃ rs, User.all db = (Return rs, db)
        ∧ length rs = size (users db)
        ∧ (∀ name u, users db !! name = Some u → project all_columns u ∈ rs).
Proof.
  intros Hf. unfold User.all, select_users. rewrite bind_eq, query_up by done.
  eexists. split; [reflexivity |]. split.
  - by rewrite !length_fmap, length_map_to_list.
  - intros name u Hu. apply list_elem_of_fmap_2.
    apply list_elem_of_fmap. exists (name, u). split; [done |].
    by apply elem_of_map_to_list.
Qed.

(** X9: while the store answers, [messagesFrom] returns one entry for each
    message whose sender is the username and no other: the entry carries the
    message's id, body and timestamps, and a [to_user] whose username is the
    message's recipient as stored, with names and phone of the registered
    user of that name, null when there is none. *)
Theorem X9_messagesFrom_exact (who : string) (db : DB) :
  fault db = None →
  ∃ l, User.messagesFrom who db = (Return l, db)
       ∧ length l = length (filter (λ m, m_from_username m = who) (messages db))
       ∧ (∀ m, m ∈ messages db → m_from_username m = who →
            ∃ o, o ∈ l ∧ o_id o = m_id m ∧ o_body o = m_body m
                 ∧ o_sent_at o = m_sent_at m ∧ o_read_at o = m_read_at m
                 ∧ s_username (o_user o) = m_to_username m
                 ∧ s_first_name (o_user o)
                   = u_first_name <$> (m_to_username m ≫= (users db !!.))
                 ∧ s_last_name (o_user o)
                   = u_last_name <$> (m_to_username m ≫= (users db !!.))
                 ∧ s_phone (o_user o)
                   = u_phone <$> (m_to_username m ≫= (users db !!.)))
       ∧ (∀ o, o ∈ l →
            ∃ m, m ∈ messages db ∧ m_from_username m = who ∧ o_id o = m_id m).
Proof.
  intros Hf. unfold User.messagesFrom, select_messages_from, array_falsy.
  rewrite bind_eq, query_up by done.
  eexists. split; [reflexivity |]. split_and!.
  - by rewrite !length_fmap.
  - intros m Hin Hfrom. eexists. split.
    + apply list_elem_of_fmap_2, list_elem_of_fmap_2.
      apply list_elem_of_filter. split; [exact Hfrom | exact Hin].
    + by split_and!.
  - intros o (r & -> & Hr)%list_elem_of_fmap.
    apply list_elem_of_fmap in Hr as (m & -> & Hm).
    apply list_elem_of_filter in Hm as [Hfrom Hin]. by exists m.
Qed.

(** X10: while the store answers, [messagesTo] returns one entry for each
    message whose recipient is the username and no other; its [from_user] is
    read from the joined user, so it holds the sender's username, names and
    phone when the sender is a registered user, and is null in every field,
    the username included, when the sender is not. *)
Theorem X10_messagesTo_exact (who : string) (db : DB) :
  fault db = None →
  ∃ l, User.messagesTo who db = (Return l, db)
       ∧ length l
         = length (filter (λ m, m_to_username m = Some who) (messages db))
       ∧ (∀ m, m ∈ messages db → m_to_username m = Some who →
            ∃ o, o ∈ l ∧ o_id o = m_id m ∧ o_body o = m_body m
                 ∧ o_sent_at o = m_sent_at m ∧ o_read_at o = m_read_at m
                 ∧ (∀ u, users db !! m_from_username m = Some u →
                      o_user o = {| s_username := Some (u_username u);
                                    s_first_name := Some (u_first_name u);
                                    s_last_name := Some (u_last_name u);
                                    s_phone := Some (u_phone u) |})
                 ∧ (users db !! m_from_username m = None →
                      o_user o = {| s_username := None; s_first_name := None;
                                    s_last_name := None; s_phone := None |}))
       ∧ (∀ o, o ∈ l →
            ∃ m, m ∈ messages db ∧ m_to_username m = Some who
                 ∧ o_id o = m_id m).
Proof.
  intros Hf. unfold User.messagesTo, select_messages_to, array_falsy.
  rewrite bind_eq, query_up by done.
  eexists. split; [reflexivity |]. split_and!.
  - by rewrite !length_fmap.
  - intros m Hin Hto. eexists. split.
    + apply list_elem_of_fmap_2, list_elem_of_fmap_2.
      apply list_elem_of_filter. split; [exact Hto | exact Hin].
    + simpl. split_and!; try done.
      * by intros u ->.
      * by intros ->.
  - intros o (r & -> & Hr)%list_elem_of_fmap.
    apply list_elem_of_fmap in Hr as (m & -> & Hm).
    apply list_elem_of_filter in Hm as [Hto Hin]. by exists m.
Qed.

(** * Further properties of routes/auth.js *)

Section AuthMore.
Context `{Externals}.

(** [POST /login], evaluated: validation, then the store, then the password. *)
Lemma login_cases (req : Request) (db : DB) :
  let username := req_body req !! "username" in
  let password := req_body req !! "password" in
  AuthRoutes.login req db =
    if falsy username || falsy password
    then (Next (ExpressError "Username and password required" 400), db)
    else match fault db with
         | Some code => (Next (PgError code), db)
         | None =>
             match username ≫= (users db !!.) with
             | Some u =>
                 if bcrypt_compare (str password) (u_password u)
                 then (Json [("message", "Logged in!");
                             ("token", jwt_sign username SECRET_KEY)],
                       (User.updateLoginTimestamp username db).2)
                 else (Next (ExpressError "Invalid username/password" 400), db)
             | None => (Next (ExpressError "Invalid username/password" 400), db)
             end
         end.
Proof.
  intros username password. unfold AuthRoutes.login, try_next.
  fold username password.
  destruct (falsy username) eqn:Hu; [done |].
  destruct (falsy password) eqn:Hp; [done |]. simpl.
  rewrite bind_eq.
  destruct (fault db) as [code|] eqn:Hf.
  - unfold User.authenticate, select_user. rewrite Hu, Hp. simpl.
    by rewrite bind_eq, (query_down _ _ code).
  - rewrite authenticate_up by done.
    destruct (username ≫= (users db !!.)) as [u|]; [|done].
    by destruct (bcrypt_compare _ _).
Qed.

(** X11: while the store answers, [POST /login] with the username of a stored
    user and a password that [bcrypt.compare] accepts against the stored hash
    answers [{message: "Logged in!", token}] and sets that user's
    [last_login_at] to the current instant, keeping the stored hash. *)
Theorem X11_login_success (req : Request) (db : DB) (name pw : string) (u : UserRow) :
  fault db = None →
  req_body req !! "username" = Some name → name ≠ "" →
  req_body req !! "password" = Some pw → pw ≠ "" →
  users db !! name = Some u → bcrypt_compare pw (u_password u) = true →
  (AuthRoutes.login req db).1
    = Json [("message", "Logged in!"); ("token", jwt_sign (Some name) SECRET_KEY)]
  ∧ users (AuthRoutes.login req db).2 !! name = Some (stamp_login (clock db) u)
  ∧ u_password (stamp_login (clock db) u) = u_password u
  ∧ u_last_login_at (stamp_login (clock db) u) = clock db.
Proof.
  intros Hf Hname Hne Hpw Hpe Hu Hc. rewrite login_cases, Hname, Hpw, Hf. simpl.
  rewrite !bool_decide_eq_false_2 by done. simpl. rewrite Hu, Hc.
  rewrite updateLoginTimestamp_up by done. simpl.
  by rewrite lookup_alter_eq, Hu.
Qed.

(** X12: [POST /login] hands [next] the 400 "Username and password required"
    error when a field is missing or empty, before the store is asked; with
    both fields present it hands [next] the same 400 "Invalid
    username/password" error for an unknown username and for a password that
    does not verify, and the store's own error when the store fails.  In all
    these cases the store, [last_login_at] included, is unchanged. *)
Theorem X12_login_rejections (req : Request) (db : DB) :
  (falsy (req_body req !! "username") = true
   ∨ falsy (req_body req !! "password") = true →
     AuthRoutes.login req db
     = (Next (ExpressError "Username and password required" 400), db))
  ∧ (falsy (req_body req !! "username") = false →
     falsy (req_body req !! "password") = false →
       (∀ code, fault db = Some code →
          AuthRoutes.login req db = (Next (PgError code), db))
       ∧ (fault db = None → req_body req !! "username" ≫= (users db !!.) = None →
          AuthRoutes.login req db
          = (Next (ExpressError "Invalid username/password" 400), db))
       ∧ (∀ u, fault db = None →
          req_body req !! "username" ≫= (users db !!.) = Some u →
          bcrypt_compare (str (req_body req !! "password")) (u_password u) = false →
          AuthRoutes.login req db
          = (Next (ExpressError "Invalid username/password" 400), db))).
Proof.
  rewrite login_cases. split.
  - intros [->| ->]; [done |]. by rewrite orb_true_r.
  - intros -> ->. simpl. split_and!.
    + by intros code ->.
    + by intros -> ->.
    + by intros u -> -> ->.
Qed.

(** X13: a login that succeeded can be repeated: the same request on the
    store it left is answered with a token again. *)
Theorem X13_login_again (req : Request) (db : DB) (j : list (string * string)) :
  (AuthRoutes.login req db).1 = Json j →
  ∃ j', (AuthRoutes.login req (AuthRoutes.login req db).2).1 = Json j'.
Proof.
  rewrite !login_cases.
  destruct (falsy _ || falsy _) eqn:Hfalsy; [done |].
  destruct (fault db) as [code|] eqn:Hf; [done |].
  destruct (req_body req !! "username") as [name|] eqn:Hname; [|done]. simpl.
  destruct (users db !! name) as [u|] eqn:Hu; [|done]. simpl.
  destruct (bcrypt_compare _ _) eqn:Hc; [|done]. intros _. simpl.
  rewrite updateLoginTimestamp_up by done. simpl. rewrite Hf.
  rewrite lookup_alter_eq, Hu. simpl. rewrite Hc. by eexists.
Qed.

End AuthMore.

Section RegisterRoute.
Context `{Externals}.

(** X14: [POST /register] with any of username, password, first_name,
    last_name, phone missing or empty hands [next] the 400 "please input all
    required information" error and leaves the store untouched, whether or
    not the store answers. *)
Theorem X14_register_missing_field (req : Request) (db : DB) (f : string) :
  f ∈ ["username"; "password"; "first_name"; "last_name"; "phone"] →
  falsy (req_body req !! f) = true →
  AuthRoutes.register req db
  = (Next (ExpressError "please input all required information" 400), db).
Proof.
  intros Hf Hfalsy. unfold AuthRoutes.register, try_next.
  repeat (apply elem_of_cons in Hf as [->|Hf];
          [rewrite Hfalsy, ?orb_true_r; reflexivity |]).
  by apply elem_of_nil in Hf.
Qed.

(** [POST /register], evaluated: validation, then [User.register]. *)
Lemma register_route_cases (req : Request) (db : DB) :
  AuthRoutes.register req db =
    if falsy (req_body req !! "username") || falsy (req_body req !! "password")
       || falsy (req_body req !! "first_name")
       || falsy (req_body req !! "last_name") || falsy (req_body req !! "phone")
    then (Next (ExpressError "please input all required information" 400), db)
    else match User.register
                 {| username := str (req_body req !! "username");
                    password := str (req_body req !! "password");
                    first_name := str (req_body req !! "first_name");
                    last_name := str (req_body req !! "last_name");
                    phone := str (req_body req !! "phone") |} db with
         | (Return (Some _), db') =>
             (Json [("message", "registered!");
                    ("token", jwt_sign (req_body req !! "username") SECRET_KEY)],
              (User.updateLoginTimestamp (req_body req !! "username") db').2)
         | (Return None, db') => (Pending, db')
         | (Throw e, db') => (Next e, db')
         end.
Proof.
  unfold AuthRoutes.register, try_next.
  destruct (falsy _ || falsy _ || falsy _ || falsy _ || falsy _); [done |].
  rewrite bind_eq.
  by destruct (User.register _ db) as [[[r|]|e] db'].
Qed.

Lemma form_lookup (a : RegisterArgs) :
  form a !! "username" = Some (username a)
  ∧ form a !! "password" = Some (password a)
  ∧ form a !! "first_name" = Some (first_name a)
  ∧ form a !! "last_name" = Some (last_name a)
  ∧ form a !! "phone" = Some (phone a).
Proof. unfold form. split_and!; by simplify_map_eq. Qed.

(** A request whose body is the form of [a], every field non-empty, reaches
    [User.register] with [a]. *)
Lemma register_route_form (req : Request) (db : DB) (a : RegisterArgs) :
  req_body req = form a →
  username a ≠ "" → password a ≠ "" → first_name a ≠ "" → last_name a ≠ "" →
  phone a ≠ "" →
  AuthRoutes.register req db =
    match User.register a db with
    | (Return (Some _), db') =>
        (Json [("message", "registered!");
               ("token", jwt_sign (Some (username a)) SECRET_KEY)],
         (User.updateLoginTimestamp (Some (username a)) db').2)
    | (Return None, db') => (Pending, db')
    | (Throw e, db') => (Next e, db')
    end.
Proof.
  intros Hbody Hu Hp Hfn Hln Hph. rewrite register_route_cases, Hbody.
  destruct (form_lookup a) as (-> & -> & -> & -> & ->). simpl.
  rewrite !bool_decide_eq_false_2 by done. simpl.
  by destruct a.
Qed.

(** X15: while the store answers, [POST /register] with all five fields and
    a username nobody has answers [{message: "registered!", token}] and
    stores the user under that username with the hash of the password, not
    the password, the names and phone of the request, [join_at] at the
    instant of the insert and [last_login_at] not before it. *)
Theorem X15_register_route_success (req : Request) (db : DB) (a : RegisterArgs) :
  req_body req = form a →
  username a ≠ "" → password a ≠ "" → first_name a ≠ "" → last_name a ≠ "" →
  phone a ≠ "" →
  fault db = None → users db !! username a = None →
  (AuthRoutes.register req db).1
    = Json [("message", "registered!");
            ("token", jwt_sign (Some (username a)) SECRET_KEY)]
  ∧ ∃ u, users (AuthRoutes.register req db).2 !! username a = Some u
         ∧ u_username u = username a
         ∧ u_password u = bcrypt_hash (password a) BCRYPT_WORK_FACTOR
         ∧ u_first_name u = first_name a
         ∧ u_last_name u = last_name a
         ∧ u_phone u = phone a
         ∧ u_join_at u = clock db
         ∧ u_join_at u ≤ u_last_login_at u.
Proof.
  intros Hbody Hu Hp Hfn Hln Hph Hf Hfresh.
  rewrite (register_route_form _ _ a) by done.
  rewrite register_fresh by done.
  rewrite updateLoginTimestamp_up by done. simpl.
  split; [done |]. rewrite lookup_alter_eq, lookup_insert_eq. simpl.
  eexists. split; [reflexivity |]. simpl. split_and!; [done .. | lia].
Qed.

(** X16: while the store answers, [POST /register] with all five fields and
    a username that is taken hands [next] the 400 "Username taken" error and
    changes nothing: the stored user keeps its hash, names and timestamps. *)
Theorem X16_register_route_duplicate (req : Request) (db : DB) (a : RegisterArgs)
    (u : UserRow) :
  req_body req = form a →
  username a ≠ "" → password a ≠ "" → first_name a ≠ "" → last_name a ≠ "" →
  phone a ≠ "" →
  fault db = None → users db !! username a = Some u →
  AuthRoutes.register req db
  = (Next (ExpressError "Username taken. Please pick another" 400), db).
Proof.
  intros Hbody Hu Hp Hfn Hln Hph Hf Htaken.
  rewrite (register_route_form _ _ a) by done.
  by rewrite register_taken by eauto.
Qed.

(** X17: registration followed by login: when [bcrypt.compare] accepts a
    password against its own hash, [POST /login] with the username and
    password of a registration that succeeded answers with a token. *)
Theorem X17_register_then_login (reg log : Request) (db : DB) (a : RegisterArgs) :
  bcrypt_compare (password a) (bcrypt_hash (password a) BCRYPT_WORK_FACTOR) = true →
  req_body reg = form a →
  req_body log = credentials (username a) (password a) →
  username a ≠ "" → password a ≠ "" → first_name a ≠ "" → last_name a ≠ "" →
  phone a ≠ "" →
  fault db = None → users db !! username a = None →
  (AuthRoutes.login log (AuthRoutes.register reg db).2).1
  = Json [("message", "Logged in!");
          ("token", jwt_sign (Some (username a)) SECRET_KEY)].
Proof.
  intros Hround Hreg Hlog Hu Hp Hfn Hln Hph Hf Hfresh.
  rewrite (register_route_form _ _ a) by done.
  rewrite register_fresh by done.
  rewrite updateLoginTimestamp_up by done. simpl.
  rewrite login_cases, Hlog. unfold credentials. simplify_map_eq. simpl.
  rewrite !bool_decide_eq_false_2 by done. simpl.
  by rewrite Hround.
Qed.

End RegisterRoute.

Section LoginFrame.
Context `{Externals}.

(** X18: whatever the request and its outcome, [POST /login] adds and removes
    no user and no message, and the only column of a user it can change is
    [last_login_at]: hashes, names, phone and [join_at] stay as stored. *)
Theorem X18_login_frame (req : Request) (db : DB) (k : string) :
  messages (AuthRoutes.login req db).2 = messages db
  ∧ (users db !! k = None → users (AuthRoutes.login req db).2 !! k = None)
  ∧ (∀ u, users db !! k = Some u →
       ∃ u', users (AuthRoutes.login req db).2 !! k = Some u'
             ∧ u_username u' = u_username u ∧ u_password u' = u_password u
             ∧ u_first_name u' = u_first_name u ∧ u_last_name u' = u_last_name u
             ∧ u_phone u' = u_phone u ∧ u_join_at u' = u_join_at u).
Proof.
  rewrite login_cases.
  destruct (falsy _ || falsy _); [by eauto 10 |].
  destruct (fault db) as [code|] eqn:Hf; [by eauto 10 |].
  destruct (req_body req !! "username") as [name|]; [|by eauto 10]. simpl.
  destruct (users db !! name) as [u0|] eqn:Hu0; [|by eauto 10]. simpl.
  destruct (bcrypt_compare _ _); [|by eauto 10].
  rewrite updateLoginTimestamp_up by done. simpl.
  split; [done |].
  destruct (decide (k = name)) as [->|Hne].
  - rewrite lookup_alter_eq, Hu0. simpl. split; [done |].
    intros u [= <-]. eexists. split; [done |]. by split_and!.
  - rewrite lookup_alter_ne by done. split; [done |].
    intros u Hu. exists u. by split_and!.
Qed.

End LoginFrame.

(** * Further properties of routes/messages.js *)

Lemma filter_mark (t id : Z) (l : list MsgRow) :
  filter (λ m, m_id m = id) (mark t id <$> l)
  = mark t id <$> filter (λ m, m_id m = id) l.
Proof.
  induction l as [|m l IH]; [done |].
  rewrite fmap_cons. destruct (decide (m_id m = id)) as [Hid|Hid].
  - rewrite !filter_cons_True by (by rewrite ?mark_id).
    by rewrite fmap_cons, IH.
  - rewrite !filter_cons_False by (by rewrite ?mark_id). done.
Qed.

Lemma get_leaves_store (id : Z) (db : DB) : (Message.get id db).2 = db.
Proof.
  unfold Message.get. rewrite bind_eq. unfold query.
  destruct (fault db); [done |]. by destruct (head _).
Qed.

(** X19: for every caller, with a token or without, [GET /:id] and
    [POST /:id/read] on an id that no stored message has hand [next] the 404
    of [Message.get] (as modelled) while the store answers, before any look
    at the caller, and change nothing. *)
Theorem X19_absent_message_404 (req : Request) (db : DB) :
  fault db = None →
  Forall (λ m, m_id m ≠ params_id req) (messages db) →
  ∃ msg, MessageRoutes.get_id req db = (Next (ExpressError msg 404), db)
         ∧ MessageRoutes.post_id_read req db = (Next (ExpressError msg 404), db).
Proof.
  intros Hf Hnone. eexists.
  unfold MessageRoutes.get_id, MessageRoutes.post_id_read, try_next, Message.get.
  rewrite !bind_eq, !query_up by done.
  rewrite filter_none by done. done.
Qed.

(** X20: with the message model as above, [GET /:id] never changes the
    store, and [POST /:id/read] and [POST /] change it only when they answer:
    a request that ends in an error handed to [next] leaves the store as it
    was. *)
Theorem X20_message_routes_store (req : Request) (db : DB) :
  (MessageRoutes.get_id req db).2 = db
  ∧ (∀ e, (MessageRoutes.post_id_read req db).1 = Next e →
       (MessageRoutes.post_id_read req db).2 = db)
  ∧ (∀ e, (MessageRoutes.post req db).1 = Next e →
       (MessageRoutes.post req db).2 = db).
Proof.
  split_and!.
  - unfold MessageRoutes.get_id, try_next. rewrite bind_eq.
    pose proof (get_leaves_store (params_id req) db) as Hget.
    destruct (Message.get (params_id req) db) as [[d|e] db']; simpl in *;
      subst db'; [|done].
    rewrite bind_eq. unfold user_username.
    destruct (req_user req) as [p|]; simpl; [|done].
    by destruct (loose_eq _ _ || loose_eq _ _).
  - intros e. unfold MessageRoutes.post_id_read, try_next. rewrite bind_eq.
    unfold Message.get at 1 2. rewrite bind_eq. unfold query at 1 2.
    destruct (fault db) as [code|] eqn:Hf; [done |]. simpl.
    rewrite head_map.
    destruct (head (filter _ (messages db))) as [m|] eqn:Hm; simpl; [|done].
    rewrite bind_eq. unfold user_username.
    destruct (req_user req) as [p|]; simpl; [|done].
    destruct (loose_eq _ _); simpl; [|done].
    rewrite bind_eq. unfold Message.markRead. rewrite bind_eq, query_up by done.
    rewrite head_map, filter_mark, head_map, Hm. simpl. done.
  - intros e. unfold MessageRoutes.post, ensureLoggedIn.
    destruct (req_user req) as [p|] eqn:Hu; [|done].
    unfold try_next, user_username. rewrite Hu, bind_eq. simpl.
    rewrite bind_eq. unfold Message.create, query.
    by destruct (fault db).
Qed.

(** * The further properties on the run *)

Lemma db1_up : fault db1 = None.
Proof. reflexivity. Qed.

Lemma db1_alice : users db1 !! "alice" = Some alice_row.
Proof. vm_compute. reflexivity. Qed.

Lemma db1_no_bob : users db1 !! "bob" = None.
Proof. vm_compute. reflexivity. Qed.

Lemma db3_up : fault db3 = None.
Proof. reflexivity. Qed.

Lemma db3_alice : users db3 !! "alice" = Some alice_row.
Proof. vm_compute. reflexivity. Qed.

Lemma db3_no_carol : users db3 !! "carol" = None.
Proof. vm_compute. reflexivity. Qed.

Lemma m1_stored : m1 ∈ messages db3.
Proof. rewrite db3_messages. by left. Qed.

Lemma X1_get_found_or_404_witness :
  (User.get (Some "carol") db3).1 = Throw (ExpressError "user not found" 404)
  ∧ ∃ r, User.get (Some "alice") db3 = (Return r, db3)
         ∧ field "phone" r = Some (SqlText "555").
Proof.
  split.
  - destruct (X1_get_found_or_404 (Some "carol") db3 db3_up) as ([_ Hnone] & _).
    apply Hnone. exact db3_no_carol.
  - destruct (X1_get_found_or_404 (Some "alice") db3 db3_up) as (_ & _ & Hfound).
    destruct (Hfound alice_row db3_alice) as (r & Hget & _ & _ & _ & Hphone & _).
    exists r. by split.
Defined.

Lemma X2_register_then_get_witness :
  ∃ r, (User.get (Some "bob") db2).1 = Return r
       ∧ field "first_name" r = Some (SqlText "Bob")
       ∧ field "join_at" r = Some (SqlTime 1000)
       ∧ field "last_login_at" r = Some (SqlTime 1000).
Proof.
  destruct (@X2_register_then_get toy bob db1 db1_up db1_no_bob)
    as (r & Hget & _ & Hfirst & _ & _ & Hjoin & Hlast & _).
  exists r. split; [exact (f_equal fst Hget) |]. by split_and!.
Defined.

Lemma X3_register_then_authenticate_witness :
  (@User.authenticate toy (Some "bob") (Some "pw2") db2).1 = Return true
  ∧ (@User.authenticate toy (Some "bob") (Some "pw1") db2).1 = Return false.
Proof.
  split.
  - exact (f_equal fst (@X3_register_then_authenticate toy bob "pw2" db1 db1_up
             db1_no_bob ltac:(discriminate) ltac:(discriminate))).
  - exact (f_equal fst (@X3_register_then_authenticate toy bob "pw1" db1 db1_up
             db1_no_bob ltac:(discriminate) ltac:(discriminate))).
Defined.

Lemma X4_reads_leave_store_witness :
  (@User.authenticate toy (Some "alice") (Some "pw1") db3).2 = db3
  ∧ (User.messagesTo "bob" db3).2 = db3.
Proof.
  destruct (@X4_reads_leave_store toy (Some "alice") (Some "pw1") None "bob" db3)
    as (Hauth & _ & _ & _ & Hto).
  by split.
Defined.

Lemma X5_updateLoginTimestamp_effect_witness :
  (∃ u', users (User.updateLoginTimestamp (Some "alice") db3).2 !! "alice" = Some u'
         ∧ u_last_login_at u' = clock db3 ∧ u_password u' = "$2b$pw1")
  ∧ User.updateLoginTimestamp (Some "carol") db3 = (Return tt, db3).
Proof.
  destruct (X5_updateLoginTimestamp_effect "alice" db3 db3_up) as (_ & Hset & _).
  destruct (Hset alice_row db3_alice) as (u' & Hu' & Hlast & _ & Hpw & _).
  split; [by exists u' |].
  by apply (X5_updateLoginTimestamp_effect "carol" db3 db3_up), db3_no_carol.
Defined.

Lemma X6_register_frame_witness :
  users (@User.register toy bob db1).2 !! "alice" = Some alice_row
  ∧ users (@User.register toy alice db1).2 !! "alice" = Some alice_row.
Proof.
  split.
  - destruct (@X6_register_frame toy bob db1) as (Hother & _ & _).
    rewrite (Hother "alice") by discriminate. exact db1_alice.
  - destruct (@X6_register_frame toy alice db1) as (_ & _ & Hkeep).
    exact (Hkeep alice_row db1_alice).
Defined.

Lemma X7_users_keyed_witness : users_keyed db0 ∧ users_keyed db1.
Proof.
  assert (users_keyed db0) as Hk0 by (intros name u Hu; discriminate Hu).
  split; [exact Hk0 |].
  exact (proj1 (@X7_users_keyed toy alice None db0 Hk0)).
Defined.

Lemma X8_all_complete_witness :
  ∃ rs, User.all db3 = (Return rs, db3) ∧ length rs = 2%nat
        ∧ project all_columns alice_row ∈ rs.
Proof.
  destruct (X8_all_complete db3 db3_up) as (rs & Hall & Hlen & Hin).
  exists rs. split_and!; [done | | by apply (Hin "alice"), db3_alice].
  rewrite Hlen. vm_compute. reflexivity.
Defined.

Lemma X9_messagesFrom_exact_witness :
  ∃ l o, User.messagesFrom "alice" db3 = (Return l, db3) ∧ length l = 1%nat
         ∧ o ∈ l ∧ o_id o = 1 ∧ s_username (o_user o) = Some "bob".
Proof.
  destruct (X9_messagesFrom_exact "alice" db3 db3_up) as (l & Hl & Hlen & Hall & _).
  destruct (Hall m1 m1_stored eq_refl) as (o & Ho & Hid & _ & _ & _ & Hto & _).
  exists l, o. split_and!; try done.
Defined.

Lemma X10_messagesTo_exact_witness :
  ∃ l o, User.messagesTo "bob" db3 = (Return l, db3)
         ∧ o ∈ l ∧ o_id o = 1 ∧ s_username (o_user o) = Some "alice".
Proof.
  destruct (X10_messagesTo_exact "bob" db3 db3_up) as (l & Hl & _ & Hall & _).
  destruct (Hall m1 m1_stored eq_refl) as (o & Ho & Hid & _ & _ & _ & Hknown & _).
  exists l, o. split_and!; try done.
  by rewrite (Hknown alice_row db3_alice).
Defined.

Lemma X11_login_success_witness :
  (@AuthRoutes.login toy (anonymous 0 (credentials "alice" "pw1")) db3).1
  = Json [("message", "Logged in!"); ("token", "jwt:alice:secret")].
Proof.
  apply (@X11_login_success toy (anonymous 0 (credentials "alice" "pw1")) db3
           "alice" "pw1" alice_row db3_up);
    try discriminate; try (vm_compute; reflexivity).
Defined.

Lemma X12_login_rejections_witness :
  @AuthRoutes.login toy (anonymous 0 (credentials "alice" "")) db3
  = (Next (ExpressError "Username and password required" 400), db3)
  ∧ @AuthRoutes.login toy (anonymous 0 (credentials "carol" "pw1")) db3
    = (Next (ExpressError "Invalid username/password" 400), db3)
  ∧ @AuthRoutes.login toy (anonymous 0 (credentials "alice" "pw2")) db3
    = (Next (ExpressError "Invalid username/password" 400), db3).
Proof.
  split_and!.
  - apply (@X12_login_rejections toy (anonymous 0 (credentials "alice" "")) db3).
    right. vm_compute. reflexivity.
  - destruct (@X12_login_rejections toy (anonymous 0 (credentials "carol" "pw1")) db3)
      as [_ Hboth].
    destruct (Hboth ltac:(vm_compute; reflexivity) ltac:(vm_compute; reflexivity))
      as (_ & Hunknown & _).
    apply Hunknown; [exact db3_up | vm_compute; reflexivity].
  - destruct (@X12_login_rejections toy (anonymous 0 (credentials "alice" "pw2")) db3)
      as [_ Hboth].
    destruct (Hboth ltac:(vm_compute; reflexivity) ltac:(vm_compute; reflexivity))
      as (_ & _ & Hwrong).
    apply (Hwrong alice_row); [exact db3_up | vm_compute; reflexivity
                              | vm_compute; reflexivity].
Defined.

Lemma X13_login_again_witness :
  ∃ j', (@AuthRoutes.login toy (anonymous 0 (credentials "alice" "pw1"))
           (@AuthRoutes.login toy (anonymous 0 (credentials "alice" "pw1")) db3).2).1
        = Json j'.
Proof.
  apply (@X13_login_again toy (anonymous 0 (credentials "alice" "pw1")) db3
           [("message", "Logged in!"); ("token", "jwt:alice:secret")]).
  vm_compute. reflexivity.
Defined.

Lemma X14_register_missing_field_witness :
  @AuthRoutes.register toy (anonymous 0 (delete "phone" (form bob))) db1
  = (Next (ExpressError "please input all required information" 400), db1).
Proof.
  apply (@X14_register_missing_field toy _ db1 "phone").
  - repeat constructor.
  - vm_compute. reflexivity.
Defined.

Lemma X15_register_route_success_witness :
  (@AuthRoutes.register toy (anonymous 0 (form bob)) db1).1
  = Json [("message", "registered!"); ("token", "jwt:bob:secret")]
  ∧ ∃ u, users (@AuthRoutes.register toy (anonymous 0 (form bob)) db1).2 !! "bob"
         = Some u
         ∧ u_password u = "$2b$pw2" ∧ u_join_at u = 1000.
Proof.
  destruct (@X15_register_route_success toy (anonymous 0 (form bob)) db1 bob eq_refl
              ltac:(discriminate) ltac:(discriminate) ltac:(discriminate)
              ltac:(discriminate) ltac:(discriminate) db1_up db1_no_bob)
    as (Hjson & u & Hu & _ & Hpw & _ & _ & _ & Hjoin & _).
  split; [exact Hjson |]. by exists u.
Defined.

Lemma X16_register_route_duplicate_witness :
  @AuthRoutes.register toy (anonymous 0 (form alice)) db1
  = (Next (ExpressError "Username taken. Please pick another" 400), db1).
Proof.
  apply (@X16_register_route_duplicate toy (anonymous 0 (form alice)) db1 alice
           alice_row eq_refl);
    try discriminate; [exact db1_up | exact db1_alice].
Defined.

Lemma X17_register_then_login_witness :
  (@AuthRoutes.login toy (anonymous 0 (credentials "bob" "pw2"))
     (@AuthRoutes.register toy (anonymous 0 (form bob)) db1).2).1
  = Json [("message", "Logged in!"); ("token", "jwt:bob:secret")].
Proof.
  apply (@X17_register_then_login toy (anonymous 0 (form bob))
           (anonymous 0 (credentials "bob" "pw2")) db1 bob);
    try discriminate; reflexivity.
Defined.

Lemma X18_login_frame_witness :
  ∃ u', users (@AuthRoutes.login toy (anonymous 0 (credentials "alice" "pw1")) db3).2
          !! "alice" = Some u'
        ∧ u_password u' = "$2b$pw1" ∧ u_join_at u' = 1000.
Proof.
  destruct (@X18_login_frame toy (anonymous 0 (credentials "alice" "pw1")) db3 "alice")
    as (_ & _ & Hkeep).
  destruct (Hkeep alice_row db3_alice) as (u' & Hu' & _ & Hpw & _ & _ & _ & Hjoin).
  by exists u'.
Defined.

Lemma X19_absent_message_404_witness :
  (∃ msg, MessageRoutes.get_id (as_user "bob" 2 ∅) db3
          = (Next (ExpressError msg 404), db3))
  ∧ (∃ msg, MessageRoutes.post_id_read (anonymous 2 ∅) db3
            = (Next (ExpressError msg 404), db3)).
Proof.
  assert (Forall (λ m, m_id m ≠ 2) (messages db3)) as Hnone
    by (rewrite db3_messages; by repeat constructor).
  split.
  - destruct (X19_absent_message_404 (as_user "bob" 2 ∅) db3 db3_up Hnone)
      as (msg & Hget & _).
    by exists msg.
  - destruct (X19_absent_message_404 (anonymous 2 ∅) db3 db3_up Hnone)
      as (msg & _ & Hread).
    by exists msg.
Defined.

Lemma X20_message_routes_store_witness :
  (MessageRoutes.get_id (as_user "bob" 1 ∅) db3).2 = db3
  ∧ (MessageRoutes.post_id_read (as_user "alice" 1 ∅) db3).2 = db3
  ∧ (MessageRoutes.post (anonymous 0 hi_bob) db3).2 = db3.
Proof.
  split_and!.
  - apply (X20_message_routes_store (as_user "bob" 1 ∅) db3).
  - destruct (X20_message_routes_store (as_user "alice" 1 ∅) db3) as (_ & Hread & _).
    apply (Hread (ExpressError "Not Authorized" 401)). vm_compute. reflexivity.
  - destruct (X20_message_routes_store (anonymous 0 hi_bob) db3) as (_ & _ & Hpost).
    apply (Hpost (ExpressError "Unauthorized" 401)). vm_compute. reflexivity.
Defined.
